(** * Client-side synchronisation core of the traffic-analysis front end

    A shallow embedding of the React pages and of the API service:
    - [services/api.js]           -> Module [Api]
    - [pages/VideoDetailPage.jsx] -> Module [VideoDetailPage]
    - the calibration page        -> Module [CalibrationPage]
    - the upload page             -> Module [UploadPage]

    Event handlers are functions from the component state (the values held
    by [useState]) to the next state and the list of effects they perform
    (alerts, navigations, HTTP requests).  JavaScript values that cross the
    wire are embedded as [JsVal]; objects are finite maps from property
    names to values. *)

From Stdlib Require Import QArith Qround Lqa ZArith Ascii String.
From stdpp Require Import gmap strings list pretty.

Set Warnings "-register-all".
#[local] Open Scope Z_scope.
#[local] Open Scope string_scope.
#[local] Open Scope list_scope.

(* ================================================================== *)
(** ** JavaScript values and the operators the source uses *)
(* ================================================================== *)

Module Js.

(** A JavaScript number.  Doubles are idealised as exact rationals; [NaN]
    is kept apart because [parseFloat] yields it on an empty input and
    the guards of the source test for it. *)
Inductive number :=
  | NaN
  | Num (q : Q).

Inductive JsVal :=
  | JUndefined
  | JNull
  | JBool (b : bool)
  | JNum (n : number)
  | JStr (s : string)
  | JArr (items : list JsVal)
  | JObj (fields : gmap string JsVal).

(** [0 < n], false on [NaN]. *)
Definition positive (n : number) : bool :=
  match n with
  | NaN => false
  | Num q => negb (Qle_bool q 0)
  end.

(** [n <= 0], false on [NaN]. *)
Definition le_zero (n : number) : bool :=
  match n with
  | NaN => false
  | Num q => Qle_bool q 0
  end.

(** ToBoolean on numbers: [0] and [NaN] are falsy. *)
Definition truthy_number (n : number) : bool :=
  match n with
  | NaN => false
  | Num q => negb (Qeq_bool q 0)
  end.

(** ToBoolean. *)
Definition truthy (v : JsVal) : bool :=
  match v with
  | JUndefined | JNull => false
  | JBool b => b
  | JNum n => truthy_number n
  | JStr s => negb (bool_decide (s = ""))
  | JArr _ | JObj _ => true
  end.

(** [a || b]. *)
Definition or (a b : JsVal) : JsVal := if truthy a then a else b.

(** Property read [v.k] / [v?.k] for a name [k] other than [length]:
    the stored value on an object that has the property, [undefined]
    everywhere else. *)
Definition prop (k : string) (v : JsVal) : JsVal :=
  match v with
  | JObj fields => default JUndefined (fields !! k)
  | _ => JUndefined
  end.

(** [v === s] for a string literal [s]. *)
Definition is_str (v : JsVal) (s : string) : bool :=
  match v with
  | JStr t => bool_decide (t = s)
  | _ => false
  end.

(** An object literal. *)
Definition obj (fields : list (string * JsVal)) : JsVal :=
  JObj (list_to_map fields).

(** A number greater than [0]. *)
Definition Positive (n : number) : Prop :=
  exists q, n = Num q /\ (0 < q)%Q.

(** [Math.floor]. *)
Definition floor (q : Q) : Z := Qfloor q.


(** The integer part of a number, towards zero. *)
Definition trunc (q : Q) : Z := Z.quot (Qnum q) (Z.pos (Qden q)).

(** [a % b]: what is left of [a] after whole multiples of [b], with the
    sign of [a]. *)
Definition rem (a b : Q) : Q := (a - b * inject_Z (trunc (a / b)))%Q.

End Js.

(* ================================================================== *)
(** ** String methods: [lastIndexOf], [substring], [toLowerCase] *)
(* ================================================================== *)

Module Str.

Definition lower_ascii (a : ascii) : ascii :=
  let n := nat_of_ascii a in
  if ((65 <=? n)%nat && (n <=? 90)%nat)%bool then ascii_of_nat (n + 32) else a.

(** [s.toLowerCase()] on an ASCII string. *)
Fixpoint toLowerCase (s : string) : string :=
  match s with
  | EmptyString => EmptyString
  | String a s' => String (lower_ascii a) (toLowerCase s')
  end.

(** Scan from index [i]; [acc] is the last match seen so far. *)
Fixpoint lastIndexOf_from (c : ascii) (s : string) (i acc : Z) : Z :=
  match s with
  | EmptyString => acc
  | String a s' =>
      lastIndexOf_from c s' (i + 1) (if bool_decide (a = c) then i else acc)
  end.

(** [s.lastIndexOf(c)]: the index of the last [c], [-1] when there is none. *)
Definition lastIndexOf (c : ascii) (s : string) : Z :=
  lastIndexOf_from c s 0 (-1).

Fixpoint drop (n : nat) (s : string) : string :=
  match n, s with
  | O, _ => s
  | S _, EmptyString => EmptyString
  | S n', String _ s' => drop n' s'
  end.

(** [s.substring(start)]: a negative start counts as [0], a start past
    the end yields the empty string. *)
Definition substring (start : Z) (s : string) : string :=
  drop (Z.to_nat start) s.

(** [c] occurs in [s]. *)
Fixpoint occurs (c : ascii) (s : string) : bool :=
  match s with
  | EmptyString => false
  | String a s' => bool_decide (a = c) || occurs c s'
  end.

(** [parts.join(sep)]. *)
Fixpoint join (sep : string) (parts : list string) : string :=
  match parts with
  | [] => ""
  | [p] => p
  | p :: rest => p +:+ sep +:+ join sep rest
  end.

End Str.

(* ================================================================== *)
(** ** Effects of the event handlers *)
(* ================================================================== *)

(** A browser [File]: the two properties the upload page reads. *)
Module File.
Record t := { name : string; size : Z }.
End File.

(** The body of an HTTP request. *)
Inductive Body :=
  | NoBody
  | Json (v : Js.JsVal)
  | Multipart (file : File.t).

(** A request handed to the axios instance of [api.js]; [url] is relative
    to the instance's base URL [/api]. *)
Record Request := { method : string; url : string; body : Body }.

Inductive Effect :=
  | Alert (msg : string)
  | Navigate (path : string)
  | Http (r : Request).

(** The requests among a handler's effects, in order. *)
Definition requests (es : list Effect) : list Request :=
  omap (fun e => match e with Http r => Some r | _ => None end) es.

(* ================================================================== *)
(** ** [services/api.js] *)
(* ================================================================== *)

Module Api.
Import Js.

(** [videoAPI.upload]: the file goes out as multipart form data. *)
Definition upload (file : File.t) : Request :=
  {| method := "POST"; url := "/videos/upload"; body := Multipart file |}.

(** [videoAPI.getById]. *)
Definition getById (id : string) : Request :=
  {| method := "GET"; url := "/videos/" +:+ id; body := NoBody |}.

(** The JSON body [videoAPI.process] builds from [config]. *)
Definition process_body (config : gmap string JsVal) : JsVal :=
  obj [ ("confidence_threshold",
          or (prop "confidence_threshold" (JObj config)) (JNum (Num (3 # 10))));
        ("iou_threshold",
          or (prop "iou_threshold" (JObj config)) (JNum (Num (7 # 10))));
        ("enable_speed_calculation",
          or (prop "enable_speed_calculation" (JObj config)) (JBool false));
        ("speed_limit",
          or (prop "speed_limit" (JObj config)) (JNum (Num 80))) ].

(** [videoAPI.process(id, config = {})]: [None] is an omitted argument,
    which the default parameter replaces by the empty object. *)
Definition process (id : string) (config : option (gmap string JsVal)) : Request :=
  {| method := "POST";
     url := "/videos/" +:+ id +:+ "/process";
     body := Json (process_body (default ∅ config)) |}.

(** [videoAPI.saveCalibration]: the caller's object is the body, as is. *)
Definition saveCalibration (id : string) (calibrationData : JsVal) : Request :=
  {| method := "POST";
     url := "/videos/" +:+ id +:+ "/calibrate";
     body := Json calibrationData |}.

(** The documented ranges of the configuration fields. *)
Definition threshold (v : JsVal) : Prop :=
  exists q, v = JNum (Num q) /\ (0 < q)%Q /\ (q <= 1)%Q.

Definition limit (v : JsVal) : Prop :=
  exists q, v = JNum (Num q) /\ (0 < q)%Q.

Definition boolean (v : JsVal) : Prop :=
  exists b, v = JBool b.

(** What goes out under the name [k]. *)
Definition transmitted (k : string) (r : Request) : JsVal :=
  match body r with
  | Json v => prop k v
  | _ => JUndefined
  end.



(** [videoAPI.getDownloadUrl] and [videoAPI.getReportDownloadUrl]. *)
Definition getDownloadUrl (id : string) : string :=
  "/api/videos/" +:+ id +:+ "/download".

Definition getReportDownloadUrl (id : string) : string :=
  "/api/videos/" +:+ id +:+ "/report/csv".

(** The names of the four members [videoAPI.process] sends. *)
Definition process_fields : list string :=
  [ "confidence_threshold"; "iou_threshold"; "enable_speed_calculation"; "speed_limit" ].

End Api.

(* ================================================================== *)
(** ** [pages/VideoDetailPage.jsx] *)
(* ================================================================== *)

Module VideoDetailPage.
Import Js.

(** The fields of a job snapshot the page's logic reads; [status] is the
    wire value. *)
Record Job := { id : string; status : string; is_calibrated : bool }.

(** The [refetchInterval] callback of the detail query, as written: it
    reads [status] off whatever value it is handed as [video]
    ([video?.status]) and answers the delay in milliseconds before the
    next read, [None] for [false]. *)
Definition refetchInterval (video : JsVal) : option Z :=
  if is_str (prop "status" video) "processing" || is_str (prop "status" video) "uploaded"
  then Some 2000
  else None.

(** A job snapshot as the object [getById] resolves to. *)
Definition job_to_js (v : Job) : JsVal :=
  obj [ ("id", JStr (id v));
        ("status", JStr (status v));
        ("is_calibrated", JBool (is_calibrated v)) ].

(** The Query object of react-query 5, the release whose names the pages
    use ([gcTime] on this very query, [isPending] on the mutations).  It
    keeps the fetched value under [state.data], next to the query's own
    [state.status]; it has no member [status].  The members left out
    ([queryHash], [options], [observers], [meta]) are not named [status]
    either. *)
Definition Query (queryKey : list JsVal) (data : JsVal) : JsVal :=
  obj [ ("queryKey", JArr queryKey);
        ("state", obj [ ("data", data);
                        ("status", JStr "success");
                        ("fetchStatus", JStr "idle") ]) ].

(** One read of the job together with the decision taken after it. *)
Record Tick := { request : Request; seen : Job; wait : option Z }.

(** The reads of the detail query against the snapshots the server
    returns to successive reads.  After each read the library calls
    [refetchInterval] on the query's Query object: a number schedules the
    next read after that delay, [false] schedules none. *)
Fixpoint poll (id : string) (server : list Job) : list Tick :=
  match server with
  | [] => []
  | v :: later =>
      match refetchInterval (Query [ JStr "video"; JStr id ] (job_to_js v)) with
      | Some ms =>
          {| request := Api.getById id; seen := v; wait := Some ms |} :: poll id later
      | None =>
          [ {| request := Api.getById id; seen := v; wait := None |} ]
      end
  end.

(** [handleProcess].  [id] is the route parameter, [confirm] the answer
    [window.confirm] returns when it is asked. *)
Definition handleProcess (id : string) (processingConfig : gmap string JsVal)
    (video : Job) (confirm : bool) : list Effect :=
  if truthy (prop "enable_speed_calculation" (JObj processingConfig))
     && negb (is_calibrated video)
  then [ Navigate ("/videos/" +:+ VideoDetailPage.id video +:+ "/calibrate") ]
  else if confirm
       then [ Http (Api.process id (Some processingConfig)) ]
       else [].

(** The initial [processingConfig] state. *)
Definition initialConfig : gmap string JsVal :=
  list_to_map [ ("confidence_threshold", JNum (Num (3 # 10)));
                ("iou_threshold", JNum (Num (7 # 10)));
                ("enable_speed_calculation", JBool false);
                ("speed_limit", JNum (Num 80)) ].

(** The statuses under which the job is still moving, and the final ones. *)
Definition active (v : Job) : Prop :=
  status v = "processing" \/ status v = "uploaded".

Definition terminal (v : Job) : Prop :=
  status v = "completed" \/ status v = "failed".

(** The fast cadence, in milliseconds. *)
Definition fast : Z := 2000.

(** [formatDuration], the same on the detail page and on the list page.
    [None] is a missing duration ([null] or [undefined]). *)
Definition formatDuration (seconds : option number) : string :=
  match seconds with
  | None | Some NaN => "N/A"
  | Some (Num q) =>
      if negb (truthy_number (Num q)) then "N/A"
      else
        let mins := floor (q / 60) in
        let secs := floor (rem q 60) in
        pretty mins +:+ "m " +:+ pretty secs +:+ "s"
  end.

(** A status other than the two under which the page keeps reading. *)
Definition inactive (v : Job) : Prop := ~ active v.

End VideoDetailPage.

(* ================================================================== *)
(** ** The calibration page *)
(* ================================================================== *)

Module CalibrationPage.
Import Js.

(** A recorded point [[x, y]], in pixels of the frame image. *)
Definition Point : Type := Q * Q.

(** The component state: [points] and [referenceDistance]. *)
Record State := { points : list Point; referenceDistance : number }.

Definition setPoints (ps : list Point) (st : State) : State :=
  {| points := ps; referenceDistance := referenceDistance st |}.

Definition setReferenceDistance (d : number) (st : State) : State :=
  {| points := points st; referenceDistance := d |}.

(** [useState([])] and [useState(10)]. *)
Definition initial : State := {| points := []; referenceDistance := Num 10 |}.

(** The box [getBoundingClientRect] returns: where and how large the
    canvas is displayed. *)
Record DOMRect := { left : Q; top : Q; rect_width : Q; rect_height : Q }.

(** The frame image: its own pixel size. *)
Record Image := { image_width : Q; image_height : Q }.

(** The canvas element: the size of its bitmap and its displayed box. *)
Record Canvas := { width : Q; height : Q; getBoundingClientRect : DOMRect }.

Record MouseEvent := { clientX : Q; clientY : Q }.

(** The sizing step of [drawCanvas]: the bitmap takes the image's size. *)
Definition drawCanvas (image : Image) (canvas : Canvas) : Canvas :=
  {| width := image_width image;
     height := image_height image;
     getBoundingClientRect := getBoundingClientRect canvas |}.

(** The canvas as [drawCanvas] leaves it: untouched while the image is
    missing or not loaded, sized to the image otherwise. *)
Definition afterDrawCanvas (image : option Image) (imageLoaded : bool)
    (canvas : Canvas) : Canvas :=
  match image with
  | Some image => if imageLoaded then drawCanvas image canvas else canvas
  | None => canvas
  end.

(** [handleCanvasClick]; [canvas] is [canvasRef.current].  Division is
    that of the rationals: a displayed box of width or height [0], where
    JavaScript yields a non-finite number, is not covered. *)
Definition handleCanvasClick (canvas : option Canvas) (e : MouseEvent)
    (st : State) : State :=
  match canvas with
  | None => st
  | Some canvas =>
      if bool_decide (4 <= length (points st))%nat then st
      else
        let rect := getBoundingClientRect canvas in
        let x := ((clientX e - left rect) / rect_width rect * width canvas)%Q in
        let y := ((clientY e - top rect) / rect_height rect * height canvas)%Q in
        setPoints (points st ++ [(x, y)]) st
  end.

Definition point_to_js (p : Point) : JsVal :=
  JArr [ JNum (Num (fst p)); JNum (Num (snd p)) ].

(** The object handed to [saveMutation.mutate]. *)
Definition calibrationData (st : State) : JsVal :=
  obj [ ("points", JArr (point_to_js <$> points st));
        ("reference_distance", JNum (referenceDistance st)) ].

(** [handleSaveCalibration]; the mutation posts through
    [videoAPI.saveCalibration]. *)
Definition handleSaveCalibration (id : string) (st : State) : list Effect :=
  if negb (bool_decide (length (points st) = 4%nat))
  then [ Alert "Please click exactly 4 points on the frame" ]
  else if negb (truthy_number (referenceDistance st)) || le_zero (referenceDistance st)
  then [ Alert "Please enter a valid reference distance" ]
  else [ Http (Api.saveCalibration id (calibrationData st)) ].

(** [handleReset]. *)
Definition handleReset (st : State) : State :=
  setReferenceDistance (Num 10) (setPoints [] st).

(** A fetched value read as a point: an array of two numbers. *)
Definition as_point (v : JsVal) : option Point :=
  match v with
  | JArr [ JNum (Num x); JNum (Num y) ] => Some (x, y)
  | _ => None
  end.

(** [if (savedPoints.length === 4) setPoints(savedPoints)].  The state
    holds points only: [None] when the source would store a value that
    is not an array of points. *)
Definition loadPoints (savedPoints : JsVal) (st : State) : option State :=
  match savedPoints with
  | JArr items =>
      if bool_decide (length items = 4%nat)
      then ps ← mapM as_point items; Some (setPoints ps st)
      else Some st
  | JStr s => if bool_decide (String.length s = 4%nat) then None else Some st
  | JObj fields =>
      match fields !! "length" with
      | Some (JNum (Num n)) => if Qeq_bool n 4 then None else Some st
      | _ => Some st
      end
  | _ => Some st
  end.

(** [if (dist && dist > 0) setReferenceDistance(dist)].  The state holds
    a number only: [None] when [dist] is a truthy value of another type,
    whose coercion by [>] is not modelled. *)
Definition loadDistance (dist : JsVal) (st : State) : option State :=
  match dist with
  | JNum n =>
      Some (if truthy_number n && positive n then setReferenceDistance n st else st)
  | JUndefined | JNull | JBool false => Some st
  | JStr s => if bool_decide (s = "") then Some st else None
  | JBool true | JArr _ | JObj _ => None
  end.

(** The pre-fill effect, run on the fetched [calibration]. *)
Definition prefill (calibration : JsVal) (st : State) : option State :=
  let data := prop "calibration_data" calibration in
  if is_str (prop "mode" data) "four_point" then
    st' ← loadPoints (or (prop "points" data) (JArr [])) st;
    loadDistance (prop "reference_distance" data) st'
  else Some st.

(** What can happen on the page. *)
Inductive Event :=
  | Click (canvas : option Canvas) (e : MouseEvent)
  | Fetched (calibration : JsVal)
  | ChangeDistance (value : number)
  | Reset.

Definition step (ev : Event) (st : State) : option State :=
  match ev with
  | Click canvas e => Some (handleCanvasClick canvas e st)
  | Fetched calibration => prefill calibration st
  | ChangeDistance value => Some (setReferenceDistance value st)
  | Reset => Some (handleReset st)
  end.

Fixpoint run (evs : list Event) (st : State) : option State :=
  match evs with
  | [] => Some st
  | ev :: evs' => st' ← step ev st; run evs' st'
  end.

(** The calls [drawCanvas] makes on the canvas and its 2D context, in
    order.  [Arc] is the full circle [arc(x, y, r, 0, 2 * Math.PI)]. *)
Inductive DrawOp :=
  | SetSize (w h : Q)
  | DrawImage (x y : Q)
  | FillStyle (colour : string)
  | StrokeStyle (colour : string)
  | LineWidth (w : Q)
  | Font (font : string)
  | BeginPath
  | Arc (x y r : Q)
  | Fill
  | FillText (text : string) (x y : Q)
  | MoveTo (x y : Q)
  | LineTo (x y : Q)
  | ClosePath
  | Stroke.

(** The body of [points.forEach(([x, y], index) => ...)]. *)
Definition marker (index : nat) (p : Point) : list DrawOp :=
  [ BeginPath; Arc (fst p) (snd p) 6; Fill;
    FillStyle "#ffffff"; Font "14px Arial";
    FillText (pretty (index + 1)%nat) (fst p + 8)%Q (snd p - 8)%Q;
    FillStyle "#00ff00" ].

Fixpoint markers (index : nat) (ps : list Point) : list DrawOp :=
  match ps with
  | [] => []
  | p :: ps' => marker index p ++ markers (S index) ps'
  end.

(** The polygon, drawn when [points.length === 4]. *)
Definition outline (ps : list Point) : list DrawOp :=
  match ps with
  | [ p0; p1; p2; p3 ] =>
      [ BeginPath; MoveTo (fst p0) (snd p0);
        LineTo (fst p1) (snd p1); LineTo (fst p2) (snd p2); LineTo (fst p3) (snd p3);
        ClosePath; Stroke ]
  | _ => []
  end.

(** The whole of [drawCanvas]: nothing without a canvas, an image and
    [imageLoaded]; else the bitmap is sized ([drawCanvas] above), the
    image drawn, and the points over it. *)
Definition drawCanvasOps (canvas : option Canvas) (image : option Image)
    (imageLoaded : bool) (st : State) : list DrawOp :=
  match canvas, image with
  | Some _, Some image =>
      if imageLoaded then
        [ SetSize (image_width image) (image_height image); DrawImage 0 0 ]
        ++ match points st with
           | [] => []
           | ps =>
               [ FillStyle "#00ff00"; StrokeStyle "#00ff00"; LineWidth 2 ]
               ++ markers 0 ps ++ outline ps
           end
      else []
  | _, _ => []
  end.

(** The labels written on the canvas, with their positions, in order. *)
Definition labels (ops : list DrawOp) : list (string * Q * Q) :=
  omap (fun op => match op with FillText t x y => Some (t, x, y) | _ => None end) ops.

(** The point a click alone records on an empty page. *)
Definition recorded (canvas : Canvas) (e : MouseEvent) : list Point :=
  points (handleCanvasClick (Some canvas) e initial).

End CalibrationPage.

(* ================================================================== *)
(** ** The upload page *)
(* ================================================================== *)

Module UploadPage.

Record State := {
  selectedFile : option File.t;
  uploadProgress : Z;
  uploadedVideoId : option string;
  pollingVideo : option string
}.

Definition initial : State :=
  {| selectedFile := None; uploadProgress := 0;
     uploadedVideoId := None; pollingVideo := None |}.

Definition setSelectedFile (f : option File.t) (st : State) : State :=
  {| selectedFile := f; uploadProgress := uploadProgress st;
     uploadedVideoId := uploadedVideoId st; pollingVideo := pollingVideo st |}.

Definition setUploadProgress (p : Z) (st : State) : State :=
  {| selectedFile := selectedFile st; uploadProgress := p;
     uploadedVideoId := uploadedVideoId st; pollingVideo := pollingVideo st |}.

Definition validTypes : list string := [ ".mp4"; ".avi"; ".mov"; ".mkv"; ".wmv" ].

Definition maxSize : Z := 500 * 1024 * 1024.

(** [file.name.substring(file.name.lastIndexOf('.')).toLowerCase()]. *)
Definition fileExt (name : string) : string :=
  Str.toLowerCase (Str.substring (Str.lastIndexOf "." name) name).

(** [validTypes.includes(fileExt)]. *)
Definition validType (name : string) : bool :=
  bool_decide (fileExt name ∈ validTypes).

(** [handleFileSelect]. *)
Definition handleFileSelect (file : File.t) (st : State) : State * list Effect :=
  if negb (validType (File.name file))
  then (st, [ Alert ("Invalid file type. Allowed: " +:+ Str.join ", " validTypes) ])
  else if bool_decide (maxSize < File.size file)
  then (st, [ Alert "File too large. Maximum size is 500MB" ])
  else (setSelectedFile (Some file) st, []).

(** [handleUpload]; the mutation sends through [videoAPI.upload]. *)
Definition handleUpload (st : State) : State * list Effect :=
  match selectedFile st with
  | None => (st, [ Alert "Please select a file first" ])
  | Some file => (st, [ Http (Api.upload file) ])
  end.

(** The error a failed upload rejects with: [error.response?.data?.detail]
    when it is a string, and [error.message]. *)
Record AxiosError := { detail : option string; message : string }.

(** [detail || message]: an absent or empty detail gives way. *)
Definition errorText (error : AxiosError) : string :=
  match detail error with
  | Some d => if bool_decide (d = "") then message error else d
  | None => message error
  end.

(** [uploadMutation]'s [onError]. *)
Definition onError (error : AxiosError) (st : State) : State * list Effect :=
  (setSelectedFile None (setUploadProgress 0 st),
   [ Alert ("Upload failed: " +:+ errorText error) ]).

(** [uploadMutation]'s [onSuccess], on the created job's id. *)
Definition onSuccess (id : string) (st : State) : State * list Effect :=
  ({| selectedFile := selectedFile st; uploadProgress := 100;
      uploadedVideoId := Some id; pollingVideo := Some id |}, []).

(** What can happen on the page: a file is picked or dropped, the
    selection is removed, the upload button is pressed, the transfer
    reports progress, fails or succeeds. *)
Inductive Event :=
  | FileSelect (file : File.t)
  | Remove
  | Upload
  | Progress (percent : Z)
  | Failed (error : AxiosError)
  | Succeeded (id : string).

Definition step (ev : Event) (st : State) : State * list Effect :=
  match ev with
  | FileSelect file => handleFileSelect file st
  | Remove => (setSelectedFile None st, [])
  | Upload => handleUpload st
  | Progress percent => (setUploadProgress percent st, [])
  | Failed error => onError error st
  | Succeeded id => onSuccess id st
  end.

(** The state after a sequence of events and every effect performed. *)
Fixpoint run (evs : list Event) (st : State) : State * list Effect :=
  match evs with
  | [] => (st, [])
  | ev :: evs' =>
      let '(st1, es1) := step ev st in
      let '(st2, es2) := run evs' st1 in
      (st2, es1 ++ es2)
  end.

(** A file that passes both checks of [handleFileSelect]. *)
Definition accepted (file : File.t) : Prop :=
  validType (File.name file) = true /\ File.size file <= maxSize.

(** A file whose extension is off the list or whose size is over the
    ceiling. *)
Definition refused (file : File.t) : Prop :=
  fileExt (File.name file) ∉ validTypes \/ maxSize < File.size file.

(** The file held in [selectedFile], if any, has passed both checks. *)
Definition selection_checked (st : State) : Prop :=
  forall file, selectedFile st = Some file -> accepted file.

(** The ids the [Succeeded] events of a sequence carry, in order. *)
Definition succeeded (evs : list Event) : list string :=
  omap (fun ev => match ev with Succeeded id => Some id | _ => None end) evs.

End UploadPage.

(* ================================================================== *)
(** ** [pages/ReportPage.jsx] *)
(* ================================================================== *)

Module ReportPage.

(** A row of the report. *)
Record Detection := {
  track_id : Z;
  timestamp : Q;
  frame_number : Z;
  speed : Q;
  is_speeding : bool
}.

(** [detections.length]. *)
Definition totalVehicles (detections : list Detection) : nat :=
  length detections.

(** [detections.filter(d => d.is_speeding).length]. *)
Definition speedingVehicles (detections : list Detection) : nat :=
  length (List.filter is_speeding detections).

(** [Math.max] of two numbers. *)
Definition max2 (a b : Q) : Q := if Qle_bool a b then b else a.

(** [Math.max(...detections.map(d => d.speed), 0)]. *)
Definition maxSpeed (detections : list Detection) : Q :=
  foldr max2 0%Q (speed <$> detections).

(** The rows shown under the chosen tab. *)
Definition filteredDetections (filter : string) (detections : list Detection)
    : list Detection :=
  List.filter
    (fun d =>
       if bool_decide (filter = "speeding") then is_speeding d
       else if bool_decide (filter = "normal") then negb (is_speeding d)
       else true)
    detections.

(** The share of speeding vehicles, in percent, before it is formatted by
    [toFixed(1)]: [(speedingVehicles / totalVehicles) * 100], and [0] on an
    empty report. *)
Definition speedingShare (detections : list Detection) : Q :=
  if bool_decide (0 < totalVehicles detections)%nat
  then (inject_Z (Z.of_nat (speedingVehicles detections))
        / inject_Z (Z.of_nat (totalVehicles detections)) * 100)%Q
  else 0%Q.

End ReportPage.

(* ================================================================== *)
(** ** Sample data *)
(* ================================================================== *)

Module Examples.
Import Js.

(** Job [7] under a given status, not calibrated. *)
Definition job (status : string) : VideoDetailPage.Job :=
  {| VideoDetailPage.id := "7";
     VideoDetailPage.status := status;
     VideoDetailPage.is_calibrated := false |}.

(** The initial processing configuration with speed calculation ticked. *)
Definition speedConfig : gmap string JsVal :=
  <["enable_speed_calculation" := JBool true]> VideoDetailPage.initialConfig.

(** A caller's configuration that gives a confidence threshold only. *)
Definition halfConfidence : gmap string JsVal :=
  {[ "confidence_threshold" := JNum (Num (1 # 2)) ]}.

Definition notes : File.t := {| File.name := "notes.txt"; File.size := 2048 |}.

Definition clip : File.t := {| File.name := "clip.mp4"; File.size := 1024 |}.

(** The upload page with [clip] selected and its transfer at 40%. *)
Definition uploading : UploadPage.State :=
  fst (UploadPage.run
         [UploadPage.FileSelect clip; UploadPage.Upload; UploadPage.Progress 40]
         UploadPage.initial).

Definition serverError : UploadPage.AxiosError :=
  {| UploadPage.detail := Some "Disk full";
     UploadPage.message := "Request failed with status code 500" |}.

(** A frame of 1920x1080 shown in a box of 960x540 placed at (100, 50). *)
Definition frame : CalibrationPage.Image :=
  {| CalibrationPage.image_width := 1920; CalibrationPage.image_height := 1080 |}.

Definition canvas : CalibrationPage.Canvas :=
  CalibrationPage.drawCanvas frame
    {| CalibrationPage.width := 300; CalibrationPage.height := 150;
       CalibrationPage.getBoundingClientRect :=
         {| CalibrationPage.left := 100; CalibrationPage.top := 50;
            CalibrationPage.rect_width := 960; CalibrationPage.rect_height := 540 |} |}.

Definition click (x y : Q) : CalibrationPage.Event :=
  CalibrationPage.Click (Some canvas)
    {| CalibrationPage.clientX := x; CalibrationPage.clientY := y |}.

(** Four clicks on the corners of the box and a fifth in its middle. *)
Definition fiveClicks : list CalibrationPage.Event :=
  [ click 100 50; click 1060 50; click 1060 590; click 100 590; click 580 320 ].

Definition corners : list CalibrationPage.Point :=
  [ (0, 0); (1920, 0); (1920, 1080); (0, 1080) ]%Q.

(** The calibration page with four points and the default distance. *)
Definition marked : CalibrationPage.State :=
  {| CalibrationPage.points := corners;
     CalibrationPage.referenceDistance := Num 10 |}.

(** A calibration in the documented wire shape, at the top level. *)
Definition wireCalibration : JsVal :=
  obj [ ("mode", JStr "four_point");
        ("points", JArr (CalibrationPage.point_to_js <$> corners));
        ("reference_distance", JNum (Num 25)) ].

(** The same calibration as the member [calibration_data] of a response. *)
Definition wrappedCalibration : JsVal :=
  obj [ ("is_calibrated", JBool true);
        ("calibration_data", wireCalibration) ].

(** The initial configuration after the speed limit box was emptied. *)
Definition clearedLimit : gmap string JsVal :=
  <["speed_limit" := JNum NaN]> VideoDetailPage.initialConfig.

(** What the service holds after the marked state was saved: the object
    sent, under [calibration_data], with the mode added. *)
Definition storedCalibration : JsVal :=
  obj [ ("is_calibrated", JBool true);
        ("calibration_data",
          JObj (<["mode" := JStr "four_point"]>
                  (list_to_map
                     [ ("points", JArr (CalibrationPage.point_to_js <$> corners));
                       ("reference_distance", JNum (Num 10)) ]))) ].

(** A stored calibration with three points only. *)
Definition threePointCalibration : JsVal :=
  obj [ ("calibration_data",
          obj [ ("mode", JStr "four_point");
                ("points",
                  JArr (CalibrationPage.point_to_js
                          <$> [ (0, 0); (1920, 0); (1920, 1080) ]%Q));
                ("reference_distance", JNum (Num 25)) ]) ].

(** A file of exactly 500MB. *)
Definition largest : File.t :=
  {| File.name := "long.MOV"; File.size := 524288000 |}.

(** Three rows of a report under a limit of 80: one is speeding. *)
Definition speeder : ReportPage.Detection :=
  {| ReportPage.track_id := 2; ReportPage.timestamp := 7 # 2;
     ReportPage.frame_number := 105; ReportPage.speed := 97;
     ReportPage.is_speeding := true |}.

Definition report : list ReportPage.Detection :=
  [ {| ReportPage.track_id := 1; ReportPage.timestamp := 1;
       ReportPage.frame_number := 30; ReportPage.speed := 62;
       ReportPage.is_speeding := false |};
    speeder;
    {| ReportPage.track_id := 3; ReportPage.timestamp := 9;
       ReportPage.frame_number := 270; ReportPage.speed := 0;
       ReportPage.is_speeding := false |} ].

(** The canvas as the page first shows it: the bitmap of 300x150 every
    canvas starts with, in the box of 960x540 placed at (100, 50). *)
Definition blank : CalibrationPage.Canvas :=
  {| CalibrationPage.width := 300; CalibrationPage.height := 150;
     CalibrationPage.getBoundingClientRect :=
       {| CalibrationPage.left := 100; CalibrationPage.top := 50;
          CalibrationPage.rect_width := 960; CalibrationPage.rect_height := 540 |} |}.

End Examples.

(* ================================================================== *)
(** * Properties *)
(* ================================================================== *)

(** ** The status poll of the detail page *)

Section Polling.
Import Js VideoDetailPage.

Lemma status_of_job (v : Job) : prop "status" (job_to_js v) = JStr (status v).
Proof. reflexivity. Qed.

(** Handed the job itself, the callback goes by the job's status. *)
Lemma refetchInterval_active (v : Job) :
  active v -> refetchInterval (job_to_js v) = Some fast.
Proof.
  intros [H | H]; unfold refetchInterval; rewrite status_of_job, H; reflexivity.
Qed.

Lemma refetchInterval_inactive (v : Job) :
  inactive v -> refetchInterval (job_to_js v) = None.
Proof.
  intros Hv. unfold refetchInterval. rewrite status_of_job. simpl.
  rewrite (bool_decide_eq_false_2 (status v = "processing"))
    by (intros H; apply Hv; left; exact H).
  rewrite (bool_decide_eq_false_2 (status v = "uploaded"))
    by (intros H; apply Hv; right; exact H).
  reflexivity.
Qed.

(** The Query object has no [status]. *)
Lemma status_of_Query (queryKey : list JsVal) (data : JsVal) :
  prop "status" (Query queryKey data) = JUndefined.
Proof.
  unfold Query, obj. cbn [list_to_map foldr uncurry fst snd prop].
  rewrite !lookup_insert_ne by discriminate. rewrite lookup_empty. reflexivity.
Qed.

Lemma refetchInterval_Query (queryKey : list JsVal) (data : JsVal) :
  refetchInterval (Query queryKey data) = None.
Proof. unfold refetchInterval. rewrite status_of_Query. reflexivity. Qed.

(** C1.  The detail page as it runs.  After a read the library hands
    [refetchInterval] the Query object, not the job; the callback finds
    no [status] on it and answers [false].  So the page reads the job
    once, whatever its status, and schedules no further read, although the
    same callback, handed the job itself, asks for the next read after
    2000 ms while the job is [processing]. *)
Theorem C1_detail_page_reads_once :
  (forall queryKey data, refetchInterval (Query queryKey data) = None) /\
  (forall id v later,
      poll id (v :: later)
        = [ {| request := Api.getById id; seen := v; wait := None |} ]) /\
  refetchInterval (job_to_js (Examples.job "processing")) = Some fast /\
  poll "7" [ Examples.job "uploaded"; Examples.job "processing";
             Examples.job "processing"; Examples.job "completed" ]
    = [ {| request := Api.getById "7"; seen := Examples.job "uploaded"; wait := None |} ].
Proof.
  assert (Honce : forall id v later,
             poll id (v :: later)
               = [ {| request := Api.getById id; seen := v; wait := None |} ]).
  { intros id v later. cbn [poll]. rewrite refetchInterval_Query. reflexivity. }
  split; [exact refetchInterval_Query |].
  split; [exact Honce |].
  split; [apply refetchInterval_active; left; reflexivity |].
  apply Honce.
Qed.

End Polling.

(** ** Starting the processing *)

Section Processing.
Import Js Api.

Lemma truthy_positive (q : Q) : (0 < q)%Q -> truthy (JNum (Num q)) = true.
Proof.
  intros Hq. simpl. destruct (Qeq_bool q 0) eqn:E; [| reflexivity].
  apply Qeq_bool_iff in E. rewrite E in Hq. exfalso. exact (Qlt_irrefl 0 Hq).
Qed.

(** [v || d] keeps a threshold, a speed limit and a boolean in range,
    and replaces a missing value. *)
Lemma or_threshold (v d : JsVal) : threshold v -> or v d = v.
Proof.
  intros (q & -> & Hq & _). unfold or. rewrite (truthy_positive q Hq). reflexivity.
Qed.

Lemma or_limit (v d : JsVal) : limit v -> or v d = v.
Proof.
  intros (q & -> & Hq). unfold or. rewrite (truthy_positive q Hq). reflexivity.
Qed.

Lemma or_boolean (v : JsVal) : boolean v -> or v (JBool false) = v.
Proof. intros [[] ->]; reflexivity. Qed.

Lemma prop_missing (k : string) (fields : gmap string JsVal) :
  fields !! k = None -> prop k (JObj fields) = JUndefined.
Proof. intros H. simpl. rewrite H. reflexivity. Qed.

Lemma prop_present (k : string) (fields : gmap string JsVal) (v : JsVal) :
  fields !! k = Some v -> prop k (JObj fields) = v.
Proof. intros H. simpl. rewrite H. reflexivity. Qed.

(** The four fields of the body, read back one by one. *)
Lemma transmitted_process (id : string) (config : option (gmap string JsVal)) :
  let cfg := JObj (default ∅ config) in
  let r := process id config in
  transmitted "confidence_threshold" r
    = or (prop "confidence_threshold" cfg) (JNum (Num (3 # 10))) /\
  transmitted "iou_threshold" r
    = or (prop "iou_threshold" cfg) (JNum (Num (7 # 10))) /\
  transmitted "enable_speed_calculation" r
    = or (prop "enable_speed_calculation" cfg) (JBool false) /\
  transmitted "speed_limit" r
    = or (prop "speed_limit" cfg) (JNum (Num 80)).
Proof.
  intros cfg r. unfold transmitted, r, process, process_body, obj.
  cbn [body list_to_map foldr uncurry fst snd].
  unfold prop at 1 3 5 7.
  repeat split; simplify_map_eq; reflexivity.
Qed.

(** C9.  Each field the caller leaves out goes out with its default
    ([0.3], [0.7], [false], [80]); each field the caller gives within its
    range goes out as given. *)
Theorem C9_process_defaults_and_passthrough :
  forall (id : string) (config : option (gmap string JsVal)),
    let cfg := default ∅ config in
    let r := process id config in
    (cfg !! "confidence_threshold" = None ->
       transmitted "confidence_threshold" r = JNum (Num (3 # 10))) /\
    (cfg !! "iou_threshold" = None ->
       transmitted "iou_threshold" r = JNum (Num (7 # 10))) /\
    (cfg !! "enable_speed_calculation" = None ->
       transmitted "enable_speed_calculation" r = JBool false) /\
    (cfg !! "speed_limit" = None ->
       transmitted "speed_limit" r = JNum (Num 80)) /\
    (forall v, cfg !! "confidence_threshold" = Some v -> threshold v ->
       transmitted "confidence_threshold" r = v) /\
    (forall v, cfg !! "iou_threshold" = Some v -> threshold v ->
       transmitted "iou_threshold" r = v) /\
    (forall v, cfg !! "enable_speed_calculation" = Some v -> boolean v ->
       transmitted "enable_speed_calculation" r = v) /\
    (forall v, cfg !! "speed_limit" = Some v -> limit v ->
       transmitted "speed_limit" r = v).
Proof.
  intros id config cfg r.
  destruct (transmitted_process id config) as (Hc & Hi & He & Hs).
  fold cfg in Hc, Hi, He, Hs. fold r in Hc, Hi, He, Hs.
  repeat split.
  - intros H. rewrite Hc, (prop_missing _ _ H). reflexivity.
  - intros H. rewrite Hi, (prop_missing _ _ H). reflexivity.
  - intros H. rewrite He, (prop_missing _ _ H). reflexivity.
  - intros H. rewrite Hs, (prop_missing _ _ H). reflexivity.
  - intros v H Hv. rewrite Hc, (prop_present _ _ _ H). apply or_threshold, Hv.
  - intros v H Hv. rewrite Hi, (prop_present _ _ _ H). apply or_threshold, Hv.
  - intros v H Hv. rewrite He, (prop_present _ _ _ H). apply or_boolean, Hv.
  - intros v H Hv. rewrite Hs, (prop_present _ _ _ H). apply or_limit, Hv.
Qed.

(** A caller that gives a confidence threshold of [0.5] and nothing else. *)
Lemma C9_process_witness :
  transmitted "confidence_threshold" (process "7" (Some Examples.halfConfidence))
    = JNum (Num (1 # 2)) /\
  transmitted "speed_limit" (process "7" (Some Examples.halfConfidence))
    = JNum (Num 80).
Proof.
  destruct (C9_process_defaults_and_passthrough "7" (Some Examples.halfConfidence))
    as (_ & _ & _ & Hs & Hc & _).
  split.
  - apply Hc; [reflexivity |].
    exists (1 # 2). split; [reflexivity |].
    split; [reflexivity | unfold Qle; simpl; lia].
  - apply Hs. reflexivity.
Defined.

End Processing.

(** ** The process button *)

Section ProcessButton.
Import Js VideoDetailPage.

(** C5.  With speed calculation switched on and a job that is not
    calibrated, [handleProcess] only navigates to the job's calibration
    page: it sends no request, whatever the user would have answered to
    the confirmation. *)
Theorem C5_uncalibrated_speed_redirects :
  forall (id : string) (processingConfig : gmap string JsVal) (video : Job) (confirm : bool),
    processingConfig !! "enable_speed_calculation" = Some (JBool true) ->
    is_calibrated video = false ->
    handleProcess id processingConfig video confirm
      = [ Navigate ("/videos/" +:+ VideoDetailPage.id video +:+ "/calibrate") ] /\
    requests (handleProcess id processingConfig video confirm) = [].
Proof.
  intros id cfg video confirm Hon Hcal.
  unfold handleProcess.
  rewrite (prop_present _ _ _ Hon), Hcal.
  split; reflexivity.
Qed.

(** Speed calculation ticked on the initial configuration, job [7] not
    calibrated, the user ready to confirm. *)
Lemma C5_redirect_witness :
  requests
    (handleProcess "7" Examples.speedConfig (Examples.job "uploaded") true) = [].
Proof.
  refine (proj2 (C5_uncalibrated_speed_redirects "7"
                   Examples.speedConfig (Examples.job "uploaded") true _ _)).
  - reflexivity.
  - reflexivity.
Defined.

End ProcessButton.

(** ** String methods *)

Section Strings.
Import Str.

Lemma lower_ascii_dot (a : ascii) : lower_ascii a = "."%char <-> a = "."%char.
Proof.
  destruct a as [[] [] [] [] [] [] [] []]; vm_compute; split; congruence.
Qed.

Lemma lower_ascii_idemp (a : ascii) : lower_ascii (lower_ascii a) = lower_ascii a.
Proof.
  destruct a as [[] [] [] [] [] [] [] []]; vm_compute; reflexivity.
Qed.

Lemma toLowerCase_idemp (s : string) : toLowerCase (toLowerCase s) = toLowerCase s.
Proof.
  induction s as [| a s IH]; simpl; [reflexivity |].
  rewrite lower_ascii_idemp, IH. reflexivity.
Qed.

Lemma toLowerCase_app (s t : string) :
  toLowerCase (s +:+ t) = toLowerCase s +:+ toLowerCase t.
Proof.
  induction s as [| a s IH]; simpl; [reflexivity |]. rewrite IH. reflexivity.
Qed.

Lemma drop_toLowerCase (n : nat) (s : string) :
  drop n (toLowerCase s) = toLowerCase (drop n s).
Proof.
  revert s. induction n as [| n IH]; intros [| a s]; simpl; auto.
Qed.

Lemma drop_app_length (s t : string) : drop (String.length s) (s +:+ t) = t.
Proof. induction s as [| a s IH]; simpl; [destruct t |]; auto. Qed.

(** Lowering the case moves no dot. *)
Lemma lastIndexOf_from_toLowerCase (s : string) (i acc : Z) :
  lastIndexOf_from "." (toLowerCase s) i acc = lastIndexOf_from "." s i acc.
Proof.
  revert i acc. induction s as [| a s IH]; intros i acc; simpl; [reflexivity |].
  rewrite IH, (bool_decide_ext _ _ (lower_ascii_dot a)). reflexivity.
Qed.

Lemma occurs_toLowerCase (s : string) : occurs "." (toLowerCase s) = occurs "." s.
Proof.
  induction s as [| a s IH]; simpl; [reflexivity |].
  rewrite IH, (bool_decide_ext _ _ (lower_ascii_dot a)). reflexivity.
Qed.

Lemma lastIndexOf_from_app (c : ascii) (s t : string) (i acc : Z) :
  lastIndexOf_from c (s +:+ t) i acc
  = lastIndexOf_from c t (i + Z.of_nat (String.length s)) (lastIndexOf_from c s i acc).
Proof.
  revert i acc. induction s as [| a s IH]; intros i acc.
  - simpl. f_equal. lia.
  - change (String a s +:+ t) with (String a (s +:+ t)).
    cbn [lastIndexOf_from]. rewrite IH. f_equal.
    change (String.length (String a s)) with (S (String.length s)). lia.
Qed.

Lemma lastIndexOf_from_absent (c : ascii) (s : string) (i acc : Z) :
  occurs c s = false -> lastIndexOf_from c s i acc = acc.
Proof.
  revert i acc. induction s as [| a s IH]; intros i acc H; simpl in *; [reflexivity |].
  apply orb_false_iff in H as [Ha Hs]. rewrite Ha. apply IH, Hs.
Qed.

End Strings.

(** ** The file-type check of the upload page *)

Section FileType.
Import Str UploadPage.

Lemma fileExt_toLowerCase (name : string) : fileExt (toLowerCase name) = fileExt name.
Proof.
  unfold fileExt, lastIndexOf, substring.
  rewrite lastIndexOf_from_toLowerCase, drop_toLowerCase.
  apply toLowerCase_idemp.
Qed.

(** The extension starts at the last dot. *)
Lemma fileExt_last_dot (stem ext : string) :
  occurs "." ext = false ->
  fileExt (stem +:+ "." +:+ ext) = "." +:+ toLowerCase ext.
Proof.
  intros Hext. unfold fileExt, lastIndexOf, substring.
  rewrite lastIndexOf_from_app.
  change ("." +:+ ext) with (String "." ext).
  cbn [lastIndexOf_from]. rewrite bool_decide_eq_true_2 by reflexivity.
  rewrite (lastIndexOf_from_absent _ _ _ _ Hext).
  replace (Z.to_nat (0 + Z.of_nat (String.length stem))) with (String.length stem) by lia.
  rewrite drop_app_length. reflexivity.
Qed.

(** Without a dot the whole name, lowered, is taken for the extension. *)
Lemma fileExt_no_dot (name : string) :
  occurs "." name = false -> fileExt name = toLowerCase name.
Proof.
  intros H. unfold fileExt, lastIndexOf, substring.
  rewrite (lastIndexOf_from_absent _ _ _ _ H). reflexivity.
Qed.

Lemma validTypes_have_dot (ext : string) : ext ∈ validTypes -> occurs "." ext = true.
Proof.
  unfold validTypes. rewrite !elem_of_cons, elem_of_nil.
  intros [-> | [-> | [-> | [-> | [-> | []]]]]]; reflexivity.
Qed.

(** C10.  The check does not look at the case of the name (so
    [clip.MP4] passes), takes the extension from the last dot, and turns
    down every name that has no dot. *)
Theorem C10_extension_check :
  validType "clip.MP4" = true /\
  (forall name1 name2,
      toLowerCase name1 = toLowerCase name2 -> validType name1 = validType name2) /\
  (forall stem ext,
      occurs "." ext = false ->
      fileExt (stem +:+ "." +:+ ext) = "." +:+ toLowerCase ext) /\
  (forall name, occurs "." name = false -> validType name = false).
Proof.
  split; [reflexivity |].
  split; [| split].
  - intros name1 name2 H. unfold validType.
    rewrite <- (fileExt_toLowerCase name1), <- (fileExt_toLowerCase name2), H.
    reflexivity.
  - exact fileExt_last_dot.
  - intros name H. unfold validType. apply bool_decide_eq_false_2.
    intros Hin. apply validTypes_have_dot in Hin.
    rewrite (fileExt_no_dot name H), occurs_toLowerCase, H in Hin.
    discriminate Hin.
Qed.

(** Two spellings of one name; a name with two dots; a name with none. *)
Lemma C10_extension_witness :
  validType "Clip.Mp4" = validType "clip.mp4" /\
  fileExt ("clip.mp4" +:+ "." +:+ "TXT") = "." +:+ toLowerCase "TXT" /\
  validType "mp4" = false.
Proof.
  destruct C10_extension_check as (_ & Hcase & Hlast & Hnone).
  split; [| split].
  - apply Hcase. reflexivity.
  - apply Hlast. reflexivity.
  - apply Hnone. reflexivity.
Defined.

End FileType.

(** ** Validation before upload *)

Section UploadValidation.
Import UploadPage.

Lemma refused_not_accepted (file : File.t) : refused file -> ~ accepted file.
Proof.
  intros [Hext | Hsize] [Hty Hsz].
  - unfold validType in Hty. apply bool_decide_eq_true_1 in Hty. contradiction.
  - lia.
Qed.

(** A refused file leaves the state as it was and only raises an alert. *)
Lemma handleFileSelect_refused (file : File.t) (st : State) :
  refused file -> exists msg, handleFileSelect file st = (st, [ Alert msg ]).
Proof.
  intros Href. unfold handleFileSelect.
  destruct (validType (File.name file)) eqn:Hty; simpl; [| eauto].
  case_bool_decide as Hsz; [eauto |].
  exfalso. apply (refused_not_accepted file Href). split; [exact Hty | lia].
Qed.

Lemma step_selection_checked (ev : Event) (st : State) :
  selection_checked st -> selection_checked (fst (step ev st)).
Proof.
  intros Hst. destruct ev as [file | | | percent | error | id]; simpl;
    try (intros f Hf; simpl in Hf; first [discriminate Hf | exact (Hst f Hf)]).
  - unfold handleFileSelect.
    destruct (validType (File.name file)) eqn:Hty; simpl; [| exact Hst].
    case_bool_decide as Hsz; simpl; [exact Hst |].
    intros f Hf. simpl in Hf. injection Hf as <-. split; [exact Hty | lia].
  - unfold handleUpload. destruct (selectedFile st); exact Hst.
Qed.

Lemma step_requests_accepted (ev : Event) (st : State) (r : Request) :
  selection_checked st ->
  r ∈ requests (snd (step ev st)) ->
  exists file, r = Api.upload file /\ accepted file.
Proof.
  intros Hst. destruct ev as [file | | | percent | error | id]; simpl;
    try (intros Hin; apply elem_of_nil in Hin; contradiction).
  - unfold handleFileSelect.
    destruct (validType (File.name file)); simpl;
      [case_bool_decide; simpl |]; intros Hin; apply elem_of_nil in Hin; contradiction.
  - unfold handleUpload. destruct (selectedFile st) as [file |] eqn:Hsel; simpl.
    + intros Hin. apply list_elem_of_singleton in Hin as ->.
      exists file. split; [reflexivity | exact (Hst file Hsel)].
    + intros Hin. apply elem_of_nil in Hin. contradiction.
Qed.

(** Every upload request the page ever sends carries a checked file. *)
Lemma run_requests_accepted (evs : list Event) (st : State) (r : Request) :
  selection_checked st ->
  r ∈ requests (snd (run evs st)) ->
  exists file, r = Api.upload file /\ accepted file.
Proof.
  revert st. induction evs as [| ev evs IH]; intros st Hst; simpl.
  - intros Hin. apply elem_of_nil in Hin. contradiction.
  - pose proof (step_selection_checked ev st Hst) as Hst1.
    pose proof (step_requests_accepted ev st r Hst) as Hreq.
    destruct (step ev st) as [st1 es1]. simpl in Hst1, Hreq.
    specialize (IH st1 Hst1).
    destruct (run evs st1) as [st2 es2]. simpl in IH |- *.
    unfold requests. rewrite omap_app. intros Hin.
    apply elem_of_app in Hin as [Hin | Hin]; auto.
Qed.

(** C6.  For a file whose extension is off the list or whose size is
    over 500MB, selecting it fails on the spot with an alert and leaves
    the selection as it was, and no sequence of events on the page makes
    it send an upload request for that file. *)
Theorem C6_refused_file_never_sent :
  forall file : File.t,
    refused file ->
    (forall st, exists msg, handleFileSelect file st = (st, [ Alert msg ])) /\
    (forall evs, Api.upload file ∉ requests (snd (run evs initial))).
Proof.
  intros file Href. split.
  - intros st. apply handleFileSelect_refused, Href.
  - intros evs Hin.
    apply run_requests_accepted in Hin as (f & Heq & Hacc).
    + injection Heq as <-. exact (refused_not_accepted file Href Hacc).
    + intros f Hf. discriminate Hf.
Qed.

(** A text file is picked and the upload button is pressed. *)
Lemma C6_refused_witness :
  Api.upload Examples.notes
    ∉ requests (snd (run [FileSelect Examples.notes; Upload] initial)).
Proof.
  pose (notes := Examples.notes).
  refine (proj2 (C6_refused_file_never_sent notes _) [FileSelect notes; Upload]).
  left. apply (bool_decide_eq_false_1 (fileExt (File.name notes) ∈ validTypes)).
  reflexivity.
Defined.

End UploadValidation.

(** ** A failed upload *)

Section UploadFailure.
Import UploadPage.

(** C8, as the handler has it.  On failure [onError] shows the error
    text in an alert, sets the progress to [0] and clears the selection:
    the page is back without a file, and pressing the upload button then
    sends nothing. *)
Theorem C8_failure_clears_selection :
  forall (error : AxiosError) (st : State),
    selectedFile (fst (onError error st)) = None /\
    uploadProgress (fst (onError error st)) = 0 /\
    uploadedVideoId (fst (onError error st)) = uploadedVideoId st /\
    pollingVideo (fst (onError error st)) = pollingVideo st /\
    snd (onError error st) = [ Alert ("Upload failed: " +:+ errorText error) ] /\
    snd (handleUpload (fst (onError error st))) = [ Alert "Please select a file first" ].
Proof.
  intros error st. repeat split.
Qed.

(** The transfer of a checked file fails: the page no longer holds it. *)
Lemma C8_failure_keeps_no_file :
  accepted Examples.clip /\
  selectedFile Examples.uploading = Some Examples.clip /\
  selectedFile (fst (step (Failed Examples.serverError) Examples.uploading))
    <> Some Examples.clip.
Proof.
  split; [split; [reflexivity | vm_compute; discriminate] |].
  split; [reflexivity |].
  vm_compute. discriminate.
Qed.

End UploadFailure.

(** ** Clicks on the frame *)

Section Clicks.
Import Js CalibrationPage.

Lemma click_when_full (canvas : option Canvas) (e : MouseEvent) (st : State) :
  (4 <= length (points st))%nat -> handleCanvasClick canvas e st = st.
Proof.
  intros H. unfold handleCanvasClick. destruct canvas; [| reflexivity].
  rewrite bool_decide_eq_true_2 by exact H. reflexivity.
Qed.

Lemma click_when_room (canvas : Canvas) (e : MouseEvent) (st : State) :
  (length (points st) < 4)%nat ->
  handleCanvasClick (Some canvas) e st =
    setPoints
      (points st ++
         [ (((clientX e - left (getBoundingClientRect canvas))
               / rect_width (getBoundingClientRect canvas) * width canvas)%Q,
            ((clientY e - top (getBoundingClientRect canvas))
               / rect_height (getBoundingClientRect canvas) * height canvas)%Q) ])
      st.
Proof.
  intros H. unfold handleCanvasClick.
  rewrite bool_decide_eq_false_2 by lia. reflexivity.
Qed.

(** Once [drawCanvas] has sized the bitmap to an image of [Wn] by [Hn], a
    click that is recorded, at display position [(x, y)] inside a box
    displayed at [Wd] by [Hd], appends the point
    [(x * Wn / Wd, y * Hn / Hd)], each axis scaled by its own ratio.
    Numbers are exact rationals. *)
Lemma click_scaled_when_sized :
  forall (image : Image) (canvas : Canvas) (e : MouseEvent) (st : State),
    let shown := drawCanvas image canvas in
    let rect := getBoundingClientRect shown in
    let x := (clientX e - left rect)%Q in
    let y := (clientY e - top rect)%Q in
    (0 < rect_width rect)%Q ->
    (0 < rect_height rect)%Q ->
    (length (points st) < 4)%nat ->
    exists p : Point,
      points (handleCanvasClick (Some shown) e st) = points st ++ [ p ] /\
      (fst p == x * image_width image / rect_width rect)%Q /\
      (snd p == y * image_height image / rect_height rect)%Q.
Proof.
  intros image canvas e st shown rect x y Hw Hh Hroom.
  rewrite (click_when_room shown e st Hroom).
  eexists. split; [reflexivity |].
  cbn [fst snd]. fold rect. fold x. fold y.
  change (width shown) with (image_width image).
  change (height shown) with (image_height image).
  split; field; intros H0.
  - rewrite H0 in Hw. exact (Qlt_irrefl 0 Hw).
  - rewrite H0 in Hh. exact (Qlt_irrefl 0 Hh).
Qed.

(** A click at (580, 320) on the sized sample canvas lands at (960, 540). *)
Lemma click_scaled_witness :
  exists p : Point,
    points (handleCanvasClick (Some Examples.canvas)
              {| clientX := 580; clientY := 320 |} initial) = [ p ] /\
    (fst p == (580 - 100) * 1920 / 960)%Q /\
    (snd p == (320 - 50) * 1080 / 540)%Q.
Proof.
  refine (click_scaled_when_sized Examples.frame _
            {| clientX := 580; clientY := 320 |} initial _ _ _).
  - reflexivity.
  - reflexivity.
  - simpl. lia.
Defined.

(** C2.  The click the page gets wrong.  The canvas is on the page as soon
    as the frame's address is known, while [drawCanvas] leaves it alone
    until the image has loaded; [handleCanvasClick] does not wait.  A click
    at (580, 320) in that interval, on the box of 960 by 540 placed at
    (100, 50), is scaled to the bitmap's initial 300 by 150 and recorded as
    (150, 75), not as the point (960, 540) of the image of 1920 by 1080. *)
Theorem C2_click_before_load_off_image :
  afterDrawCanvas (Some Examples.frame) false Examples.blank = Examples.blank /\
  exists p : Point,
    points (handleCanvasClick
              (Some (afterDrawCanvas (Some Examples.frame) false Examples.blank))
              {| clientX := 580; clientY := 320 |} initial) = [ p ] /\
    (fst p == 150)%Q /\ (snd p == 75)%Q /\
    ~ (fst p == (580 - 100) * 1920 / 960)%Q /\
    ~ (snd p == (320 - 50) * 1080 / 540)%Q.
Proof.
  split; [reflexivity |].
  eexists. split; [reflexivity |].
  cbn [fst snd]. repeat split; try reflexivity; intros H; discriminate H.
Qed.

Lemma loadPoints_length (v : JsVal) (st st' : State) :
  loadPoints v st = Some st' ->
  (length (points st) <= 4)%nat -> (length (points st') <= 4)%nat.
Proof.
  intros Hload Hst. destruct v; simpl in Hload; try (injection Hload as <-; exact Hst).
  - case_bool_decide; [discriminate Hload | injection Hload as <-; exact Hst].
  - case_bool_decide as Hlen; [| injection Hload as <-; exact Hst].
    destruct (mapM as_point items) as [ps |] eqn:Hps; [| discriminate Hload].
    simpl in Hload. injection Hload as <-. simpl.
    apply length_mapM in Hps. lia.
  - destruct (fields !! "length") as [[| | | [| n] | | |] |];
      try (injection Hload as <-; exact Hst).
    destruct (Qeq_bool n 4); [discriminate Hload | injection Hload as <-; exact Hst].
Qed.

Lemma loadDistance_points (v : JsVal) (st st' : State) :
  loadDistance v st = Some st' -> points st' = points st.
Proof.
  intros Hload. destruct v as [| | [] | n | s | |]; simpl in Hload;
    try discriminate Hload; try (injection Hload as <-; reflexivity).
  - injection Hload as <-. destruct (truthy_number n && positive n); reflexivity.
  - case_bool_decide; [injection Hload as <-; reflexivity | discriminate Hload].
Qed.

Lemma step_length (ev : Event) (st st' : State) :
  step ev st = Some st' ->
  (length (points st) <= 4)%nat -> (length (points st') <= 4)%nat.
Proof.
  intros Hstep Hst. destruct ev as [canvas e | calibration | value |]; simpl in Hstep.
  - injection Hstep as <-.
    destruct (decide (4 <= length (points st))%nat) as [Hfull | Hroom].
    + rewrite click_when_full by exact Hfull. exact Hst.
    + destruct canvas as [canvas |]; [| exact Hst].
      rewrite click_when_room by lia. simpl. rewrite length_app. simpl. lia.
  - unfold prefill in Hstep.
    destruct (is_str _ _); [| injection Hstep as <-; exact Hst].
    destruct (loadPoints _ st) as [st1 |] eqn:H1; [| discriminate Hstep].
    simpl in Hstep. apply loadDistance_points in Hstep. rewrite Hstep.
    exact (loadPoints_length _ _ _ H1 Hst).
  - injection Hstep as <-. exact Hst.
  - injection Hstep as <-. simpl. lia.
Qed.

Lemma run_length (evs : list Event) (st st' : State) :
  run evs st = Some st' ->
  (length (points st) <= 4)%nat -> (length (points st') <= 4)%nat.
Proof.
  revert st. induction evs as [| ev evs IH]; intros st Hrun Hst; simpl in Hrun.
  - injection Hrun as <-. exact Hst.
  - destruct (step ev st) as [st1 |] eqn:Hstep; [| discriminate Hrun].
    simpl in Hrun. exact (IH st1 Hrun (step_length ev st st1 Hstep Hst)).
Qed.

(** C7.  A click while four points are recorded changes nothing; a click
    on the canvas while fewer are recorded appends one point at the end;
    and from the page's initial state no sequence of clicks, loaded
    calibrations, distance edits and resets yields more than four
    points. *)
Theorem C7_at_most_four_points :
  (forall canvas e st,
      length (points st) = 4%nat -> handleCanvasClick canvas e st = st) /\
  (forall canvas e st,
      (length (points st) < 4)%nat ->
      exists p, points (handleCanvasClick (Some canvas) e st) = points st ++ [ p ] /\
                referenceDistance (handleCanvasClick (Some canvas) e st)
                  = referenceDistance st) /\
  (forall evs st, run evs initial = Some st -> (length (points st) <= 4)%nat).
Proof.
  split; [| split].
  - intros canvas e st H. apply click_when_full. lia.
  - intros canvas e st H. rewrite (click_when_room canvas e st H).
    eexists. split; reflexivity.
  - intros evs st Hrun. apply (run_length evs initial st Hrun). simpl. lia.
Qed.

(** Five clicks on the sample canvas: the fifth is dropped. *)
Lemma C7_five_clicks_witness :
  exists st,
    run Examples.fiveClicks initial = Some st /\ (length (points st) <= 4)%nat.
Proof.
  eexists. split; [reflexivity |].
  exact (proj2 (proj2 C7_at_most_four_points) Examples.fiveClicks _ eq_refl).
Defined.

End Clicks.

(** ** Saving and loading a calibration *)

Section Calibration.
Import Js CalibrationPage.

Lemma positive_Positive (n : number) : positive n = true <-> Positive n.
Proof.
  split.
  - destruct n as [| q]; simpl; [discriminate |]. intros H.
    exists q. split; [reflexivity |].
    apply Qnot_le_lt. intros Hle. apply Qle_bool_iff in Hle.
    rewrite Hle in H. discriminate H.
  - intros (q & -> & Hq). simpl.
    destruct (Qle_bool q 0) eqn:E; [| reflexivity].
    apply Qle_bool_iff in E. exfalso. exact (Qlt_not_le _ _ Hq E).
Qed.

(** The guard [!referenceDistance || referenceDistance <= 0] turns down
    exactly the values that are not a number above [0]. *)
Lemma distance_guard (n : number) :
  negb (truthy_number n) || le_zero n = negb (positive n).
Proof.
  destruct n as [| q]; simpl; [reflexivity |].
  destruct (Qeq_bool q 0) eqn:E0; simpl; [| destruct (Qle_bool q 0); reflexivity].
  apply Qeq_bool_iff in E0.
  assert (Hle : Qle_bool q 0 = true) by (apply Qle_bool_iff; rewrite E0; apply Qle_refl).
  rewrite Hle. reflexivity.
Qed.

Lemma save_complete (id : string) (st : State) :
  length (points st) = 4%nat ->
  Positive (referenceDistance st) ->
  handleSaveCalibration id st = [ Http (Api.saveCalibration id (calibrationData st)) ].
Proof.
  intros Hlen Hpos. unfold handleSaveCalibration.
  rewrite bool_decide_eq_true_2 by exact Hlen.
  rewrite distance_guard. apply positive_Positive in Hpos. rewrite Hpos. reflexivity.
Qed.

Lemma save_incomplete (id : string) (st : State) :
  length (points st) <> 4%nat \/ ~ Positive (referenceDistance st) ->
  exists msg, handleSaveCalibration id st = [ Alert msg ].
Proof.
  intros H. unfold handleSaveCalibration.
  case_bool_decide as Hlen; simpl; [| eauto].
  rewrite distance_guard.
  destruct (positive (referenceDistance st)) eqn:Hpos; simpl; [| eauto].
  apply positive_Positive in Hpos. destruct H; contradiction.
Qed.

Lemma Positive_dec (n : number) : Positive n \/ ~ Positive n.
Proof.
  destruct (positive n) eqn:E.
  - left. apply positive_Positive, E.
  - right. intros H. apply positive_Positive in H. congruence.
Qed.

(** C4.  With fewer than four points, or with a reference distance that
    is not a number above [0], [handleSaveCalibration] only raises an
    alert and sends nothing; it sends the save request exactly when four
    points are recorded and the distance is above [0]. *)
Theorem C4_save_only_when_complete :
  forall (id : string) (st : State),
    ((length (points st) < 4)%nat \/ ~ Positive (referenceDistance st) ->
       (exists msg, handleSaveCalibration id st = [ Alert msg ]) /\
       requests (handleSaveCalibration id st) = []) /\
    (requests (handleSaveCalibration id st) <> [] ->
       length (points st) = 4%nat /\ Positive (referenceDistance st)) /\
    (length (points st) = 4%nat -> Positive (referenceDistance st) ->
       requests (handleSaveCalibration id st)
         = [ Api.saveCalibration id (calibrationData st) ]).
Proof.
  intros id st. split; [| split].
  - intros H.
    destruct (save_incomplete id st) as [msg Hmsg].
    { destruct H as [H | H]; [left; lia | right; exact H]. }
    rewrite Hmsg. split; [eauto | reflexivity].
  - intros Hreq.
    destruct (decide (length (points st) = 4%nat)) as [Hlen | Hlen];
      [destruct (Positive_dec (referenceDistance st)) as [Hpos | Hpos] |].
    + split; assumption.
    + destruct (save_incomplete id st (or_intror Hpos)) as [msg Hmsg].
      rewrite Hmsg in Hreq. contradiction Hreq. reflexivity.
    + destruct (save_incomplete id st (or_introl Hlen)) as [msg Hmsg].
      rewrite Hmsg in Hreq. contradiction Hreq. reflexivity.
  - intros Hlen Hpos. rewrite (save_complete id st Hlen Hpos). reflexivity.
Qed.

(** Saving from the initial state (no point yet) and from the marked one. *)
Lemma C4_save_witness :
  requests (handleSaveCalibration "7" initial) = [] /\
  requests (handleSaveCalibration "7" Examples.marked)
    = [ Api.saveCalibration "7" (calibrationData Examples.marked) ].
Proof.
  split.
  - refine (proj2 (proj1 (C4_save_only_when_complete "7" initial) _)).
    left. simpl. lia.
  - refine (proj2 (proj2 (C4_save_only_when_complete "7" Examples.marked)) _ _).
    + reflexivity.
    + exists 10%Q. split; reflexivity.
Defined.

End Calibration.

Section WireShape.
Import Js CalibrationPage.

Lemma save_request_inv (id : string) (st : State) (r : Request) :
  r ∈ requests (handleSaveCalibration id st) ->
  length (points st) = 4%nat /\ Positive (referenceDistance st) /\
  r = Api.saveCalibration id (calibrationData st).
Proof.
  intros Hin.
  destruct (decide (length (points st) = 4%nat)) as [Hlen | Hlen];
    [destruct (Positive_dec (referenceDistance st)) as [Hpos | Hpos] |].
  - rewrite (save_complete id st Hlen Hpos) in Hin.
    apply list_elem_of_singleton in Hin. auto.
  - destruct (save_incomplete id st (or_intror Hpos)) as [msg Hmsg].
    rewrite Hmsg in Hin. apply elem_of_nil in Hin. contradiction.
  - destruct (save_incomplete id st (or_introl Hlen)) as [msg Hmsg].
    rewrite Hmsg in Hin. apply elem_of_nil in Hin. contradiction.
Qed.

Lemma as_point_to_js (p : Point) : as_point (point_to_js p) = Some p.
Proof. destruct p; reflexivity. Qed.

(** A response member in the wire shape, with four points and a distance
    above [0], replaces both halves of the state. *)
Lemma prefill_wrapped (calibration : JsVal) (data : gmap string JsVal)
    (ps : list Point) (q : Q) (st : State) :
  prop "calibration_data" calibration = JObj data ->
  data !! "mode" = Some (JStr "four_point") ->
  data !! "points" = Some (JArr (point_to_js <$> ps)) ->
  length ps = 4%nat ->
  data !! "reference_distance" = Some (JNum (Num q)) ->
  (0 < q)%Q ->
  prefill calibration st = Some {| points := ps; referenceDistance := Num q |}.
Proof.
  intros Hdata Hmode Hpoints Hlen Hdist Hq.
  unfold prefill. rewrite Hdata.
  rewrite (prop_present _ _ _ Hmode), (prop_present _ _ _ Hpoints),
    (prop_present _ _ _ Hdist).
  cbn [is_str or truthy loadPoints].
  rewrite bool_decide_eq_true_2 by reflexivity.
  rewrite bool_decide_eq_true_2 by (rewrite length_fmap; exact Hlen).
  rewrite (mapM_fmap_Some as_point point_to_js ps as_point_to_js).
  cbn [mbind option_bind loadDistance].
  pose proof (truthy_positive q Hq) as Ht.
  change (truthy_number (Num q) = true) in Ht. rewrite Ht.
  assert (Hp : positive (Num q) = true) by (apply positive_Positive; exists q; auto).
  rewrite Hp. reflexivity.
Qed.

(** C3, as the code has it.  What [save] sends is an object of two
    members, [points] with four coordinate pairs and [reference_distance]
    with a number above [0]; it carries no [mode].  A fetched response is
    loaded when its member [calibration_data] is in the wire shape with
    mode [four_point], four points and a distance above [0]. *)
Theorem C3_saved_shape_and_wrapped_load :
  (forall (id : string) (st : State) (r : Request),
      r ∈ requests (handleSaveCalibration id st) ->
      exists p1 p2 p3 p4 q,
        (0 < q)%Q /\
        r = Api.saveCalibration id
              (obj [ ("points", JArr [ point_to_js p1; point_to_js p2;
                                       point_to_js p3; point_to_js p4 ]);
                     ("reference_distance", JNum (Num q)) ]) /\
        Api.transmitted "mode" r = JUndefined) /\
  (forall (calibration : JsVal) (data : gmap string JsVal)
          (ps : list Point) (q : Q) (st : State),
      prop "calibration_data" calibration = JObj data ->
      data !! "mode" = Some (JStr "four_point") ->
      data !! "points" = Some (JArr (point_to_js <$> ps)) ->
      length ps = 4%nat ->
      data !! "reference_distance" = Some (JNum (Num q)) ->
      (0 < q)%Q ->
      prefill calibration st = Some {| points := ps; referenceDistance := Num q |}).
Proof.
  split; [| exact prefill_wrapped].
  intros id st r Hin.
  apply save_request_inv in Hin as (Hlen & (q & Hq & Hpos) & ->).
  destruct st as [ps d]. simpl in Hlen, Hq. subst d.
  destruct ps as [| p1 [| p2 [| p3 [| p4 [| p5 ps]]]]]; try discriminate Hlen.
  exists p1, p2, p3, p4, q. split; [exact Hpos |]. split; reflexivity.
Qed.

(** Saving the marked state, and loading the wrapped sample response. *)
Lemma C3_shape_witness :
  (exists p1 p2 p3 p4 q,
      (0 < q)%Q /\
      Api.saveCalibration "7" (calibrationData Examples.marked)
        = Api.saveCalibration "7"
            (obj [ ("points", JArr [ point_to_js p1; point_to_js p2;
                                     point_to_js p3; point_to_js p4 ]);
                   ("reference_distance", JNum (Num q)) ]) /\
      Api.transmitted "mode" (Api.saveCalibration "7" (calibrationData Examples.marked))
        = JUndefined) /\
  prefill Examples.wrappedCalibration initial
    = Some {| points := Examples.corners; referenceDistance := Num 25 |}.
Proof.
  split.
  - refine (proj1 C3_saved_shape_and_wrapped_load "7" Examples.marked _ _).
    apply list_elem_of_singleton. reflexivity.
  - refine (proj2 C3_saved_shape_and_wrapped_load Examples.wrappedCalibration
              (list_to_map
                 [ ("mode", JStr "four_point");
                   ("points", JArr (point_to_js <$> Examples.corners));
                   ("reference_distance", JNum (Num 25)) ])
              Examples.corners 25%Q initial _ _ _ _ _ _); reflexivity.
Defined.

(** The claim fails twice on the code: the object sent for the marked
    state has no [mode], and a fetched calibration in the wire shape
    itself, four points and distance [25], leaves the state as it was. *)
Lemma C3_no_mode_sent_flat_shape_not_loaded :
  requests (handleSaveCalibration "7" Examples.marked)
    = [ Api.saveCalibration "7" (calibrationData Examples.marked) ] /\
  Api.transmitted "mode" (Api.saveCalibration "7" (calibrationData Examples.marked))
    <> JStr "four_point" /\
  prefill Examples.wireCalibration initial = Some initial /\
  points initial = [].
Proof.
  split; [reflexivity |].
  split; [vm_compute; discriminate |].
  split; reflexivity.
Qed.

End WireShape.

(* ================================================================== *)
(** * Further properties of the code *)
(* ================================================================== *)

(** ** Upload progress *)

Section UploadProgress.
Import Js Api.





End UploadProgress.

(** ** Download locators *)

Section Locators.
Import Api.

Lemma list_ascii_app (s t : string) :
  list_ascii_of_string (s +:+ t) = list_ascii_of_string s ++ list_ascii_of_string t.
Proof. induction s as [| a s IH]; simpl; [reflexivity |]. rewrite IH. reflexivity. Qed.

Lemma list_ascii_inj (s t : string) :
  list_ascii_of_string s = list_ascii_of_string t -> s = t.
Proof.
  intros H. rewrite <- (string_of_list_ascii_of_string s), H.
  apply string_of_list_ascii_of_string.
Qed.

(** A common prefix and a common suffix can be taken off. *)
Lemma between_inj (pre post s t : string) :
  pre +:+ s +:+ post = pre +:+ t +:+ post -> s = t.
Proof.
  intros H. apply String.app_inj in H.
  apply (f_equal list_ascii_of_string) in H.
  rewrite !list_ascii_app in H. apply app_inv_tail in H.
  apply list_ascii_inj, H.
Qed.

Lemma last_ascii_app (s t : string) (c : ascii) :
  last (list_ascii_of_string t) = Some c ->
  last (list_ascii_of_string (s +:+ t)) = Some c.
Proof. intros H. rewrite list_ascii_app, last_app, H. reflexivity. Qed.

(** X2.  The download address and the report address identify the job:
    two ids give the same address only when they are the same id, and no
    download address is a report address. *)
Theorem locators_identify_job :
  forall id1 id2 : string,
    (getDownloadUrl id1 = getDownloadUrl id2 -> id1 = id2) /\
    (getReportDownloadUrl id1 = getReportDownloadUrl id2 -> id1 = id2) /\
    getDownloadUrl id1 <> getReportDownloadUrl id2.
Proof.
  intros id1 id2. split; [| split].
  - apply between_inj.
  - apply between_inj.
  - unfold getDownloadUrl, getReportDownloadUrl. intros H.
    apply (f_equal (fun s => last (list_ascii_of_string s))) in H.
    rewrite (last_ascii_app "/api/videos/" (id1 +:+ "/download") "d") in H
      by (apply last_ascii_app; reflexivity).
    rewrite (last_ascii_app "/api/videos/" (id2 +:+ "/report/csv") "v") in H
      by (apply last_ascii_app; reflexivity).
    discriminate H.
Qed.

(** The two addresses of job [7]. *)
Lemma locators_witness :
  "7" = "7" /\ getDownloadUrl "7" <> getReportDownloadUrl "7".
Proof.
  split.
  - refine (proj1 (locators_identify_job "7" "7") _). reflexivity.
  - exact (proj2 (proj2 (locators_identify_job "7" "7"))).
Defined.

End Locators.

(** ** What the process request carries *)

Section ProcessBody.
Import Js Api VideoDetailPage.

Lemma or_falsy (v d : JsVal) : truthy v = false -> or v d = d.
Proof. intros H. unfold or. rewrite H. reflexivity. Qed.

Lemma truthy_or (v d : JsVal) : truthy d = true -> truthy (or v d) = true.
Proof. intros H. unfold or. destruct (truthy v) eqn:E; [exact E | exact H]. Qed.

Lemma transmitted_other (id : string) (config : option (gmap string JsVal)) (k : string) :
  k ∉ process_fields -> transmitted k (process id config) = JUndefined.
Proof.
  unfold process_fields. rewrite !not_elem_of_cons. intros (H1 & H2 & H3 & H4 & _).
  unfold transmitted, process, process_body, obj.
  cbn [body list_to_map foldr uncurry fst snd prop].
  rewrite !lookup_insert_ne by congruence. rewrite lookup_empty. reflexivity.
Qed.

(** X3.  The three numbers of a process request are never [0], [NaN],
    [null] or missing: a value of the caller that is falsy is replaced by
    the default of its field, whatever the field; and no member of the
    caller's object other than the four documented ones is passed on. *)
Theorem process_replaces_falsy_and_drops_unknown :
  forall (id : string) (config : option (gmap string JsVal)),
    let cfg := default ∅ config in
    let r := process id config in
    (truthy (transmitted "confidence_threshold" r) = true /\
     truthy (transmitted "iou_threshold" r) = true /\
     truthy (transmitted "speed_limit" r) = true) /\
    (forall v, truthy v = false ->
       (cfg !! "confidence_threshold" = Some v ->
          transmitted "confidence_threshold" r = JNum (Num (3 # 10))) /\
       (cfg !! "iou_threshold" = Some v ->
          transmitted "iou_threshold" r = JNum (Num (7 # 10))) /\
       (cfg !! "enable_speed_calculation" = Some v ->
          transmitted "enable_speed_calculation" r = JBool false) /\
       (cfg !! "speed_limit" = Some v ->
          transmitted "speed_limit" r = JNum (Num 80))) /\
    (forall k, k ∉ process_fields -> transmitted k r = JUndefined).
Proof.
  intros id config cfg r.
  destruct (transmitted_process id config) as (Hc & Hi & He & Hs).
  fold cfg in Hc, Hi, He, Hs. fold r in Hc, Hi, He, Hs.
  split; [| split].
  - rewrite Hc, Hi, Hs. repeat split; apply truthy_or; reflexivity.
  - intros v Hv. repeat split; intros H.
    + rewrite Hc, (prop_present _ _ _ H). apply or_falsy, Hv.
    + rewrite Hi, (prop_present _ _ _ H). apply or_falsy, Hv.
    + rewrite He, (prop_present _ _ _ H). apply or_falsy, Hv.
    + rewrite Hs, (prop_present _ _ _ H). apply or_falsy, Hv.
  - intros k Hk. apply transmitted_other, Hk.
Qed.

(** The speed limit box emptied ([parseFloat] gives [NaN]), and a member
    the service does not know. *)
Lemma process_falsy_witness :
  transmitted "speed_limit" (process "7" (Some Examples.clearedLimit)) = JNum (Num 80) /\
  transmitted "debug" (process "7" (Some Examples.clearedLimit)) = JUndefined.
Proof.
  destruct (process_replaces_falsy_and_drops_unknown "7" (Some Examples.clearedLimit))
    as (_ & Hfalsy & Hother).
  split.
  - refine (proj2 (proj2 (proj2 (Hfalsy (JNum NaN) _))) _); reflexivity.
  - apply Hother. unfold process_fields. rewrite !not_elem_of_cons.
    repeat split; try discriminate. apply not_elem_of_nil.
Defined.

(** X4.  Every request [handleProcess] sends is the process request for
    the page's job with the page's configuration, sent after the user
    confirmed; for a job that is not calibrated it goes out with speed
    calculation off. *)
Theorem process_request_guarded :
  forall (id : string) (processingConfig : gmap string JsVal) (video : Job)
         (confirm : bool) (r : Request),
    r ∈ requests (handleProcess id processingConfig video confirm) ->
    r = process id (Some processingConfig) /\
    confirm = true /\
    (is_calibrated video = false ->
       transmitted "enable_speed_calculation" r = JBool false).
Proof.
  intros id cfg video confirm r. unfold handleProcess.
  destruct (truthy (prop "enable_speed_calculation" (JObj cfg))) eqn:Hon;
    destruct (is_calibrated video) eqn:Hcal; simpl;
    try (intros Hin; apply elem_of_nil in Hin; contradiction);
    (destruct confirm; simpl;
       [| intros Hin; apply elem_of_nil in Hin; contradiction]);
    intros Hin; apply list_elem_of_singleton in Hin as ->;
    (split; [reflexivity |]); (split; [reflexivity |]);
    intros Hno; try discriminate Hno.
  destruct (transmitted_process id (Some cfg)) as (_ & _ & He & _).
  simpl in He. rewrite He. apply or_falsy, Hon.
Qed.

(** The initial configuration, confirmed, on an uploaded job. *)
Lemma process_request_witness :
  process "7" (Some initialConfig) = process "7" (Some initialConfig) /\
  true = true /\
  (is_calibrated (Examples.job "uploaded") = false ->
     transmitted "enable_speed_calculation" (process "7" (Some initialConfig))
       = JBool false).
Proof.
  refine (process_request_guarded "7" initialConfig (Examples.job "uploaded") true _ _).
  apply list_elem_of_singleton. reflexivity.
Defined.

End ProcessBody.

(** ** The duration shown for a job *)

Section Duration.
Import Js VideoDetailPage.

Lemma Qfloor_minus_Z (x : Q) (z : Z) : Qfloor (x - inject_Z z) = Qfloor x - z.
Proof.
  destruct x as [n d]. unfold Qfloor, Qminus, Qplus, Qopp, inject_Z. simpl.
  rewrite Pos.mul_1_r, Z.mul_1_r.
  replace (n + - z * Z.pos d) with (n + (- z) * Z.pos d) by lia.
  rewrite Z.div_add by lia. lia.
Qed.

(** The whole minutes in [q] seconds. *)
Lemma floor_minutes (q : Q) : floor (q / 60) = Qfloor q / 60.
Proof.
  destruct q as [n d]. unfold floor, Qfloor, Qdiv, Qmult, Qinv. simpl.
  rewrite Z.mul_1_r, Pos2Z.inj_mul. apply eq_sym, Z.div_div; lia.
Qed.

Lemma trunc_minutes (q : Q) : (0 < q)%Q -> trunc (q / 60) = Qfloor q / 60.
Proof.
  intros Hq. rewrite <- floor_minutes.
  destruct q as [n d]. unfold Qlt in Hq. simpl in Hq.
  unfold trunc, floor, Qfloor, Qdiv, Qmult, Qinv. simpl.
  apply Z.quot_div_nonneg; lia.
Qed.

(** The seconds left over. *)
Lemma floor_seconds (q : Q) : (0 < q)%Q -> floor (rem q 60) = Qfloor q mod 60.
Proof.
  intros Hq. unfold rem, floor. rewrite (trunc_minutes q Hq).
  assert (Heq : (q - 60 * inject_Z (Qfloor q / 60) == q - inject_Z (60 * (Qfloor q / 60)))%Q).
  { rewrite inject_Z_mult. reflexivity. }
  rewrite (Qfloor_comp _ _ Heq), Qfloor_minus_Z.
  rewrite (Z.mod_eq (Qfloor q) 60) by lia. reflexivity.
Qed.

(** X5.  A missing duration, [NaN] and [0] are shown as [N/A].  A
    duration above [0] is shown as whole minutes and whole seconds: the
    seconds are between [0] and [59], and the minutes and seconds together
    are the duration rounded down to a second. *)
Theorem formatDuration_minutes_seconds :
  formatDuration None = "N/A" /\
  formatDuration (Some NaN) = "N/A" /\
  (forall q, (q == 0)%Q -> formatDuration (Some (Num q)) = "N/A") /\
  (forall q, (0 < q)%Q ->
     exists mins secs : Z,
       formatDuration (Some (Num q)) = pretty mins +:+ "m " +:+ pretty secs +:+ "s" /\
       0 <= mins /\ 0 <= secs < 60 /\ 60 * mins + secs = Qfloor q).
Proof.
  split; [reflexivity |]. split; [reflexivity |]. split.
  - intros q Hq. unfold formatDuration. simpl.
    rewrite (proj2 (Qeq_bool_iff q 0) Hq). reflexivity.
  - intros q Hq. exists (Qfloor q / 60), (Qfloor q mod 60).
    assert (Hfl : 0 <= Qfloor q).
    { change 0 with (Qfloor 0). apply Qfloor_resp_le, Qlt_le_weak, Hq. }
    split.
    + unfold formatDuration.
      pose proof (truthy_positive q Hq) as Ht.
      change (truthy_number (Num q) = true) in Ht. rewrite Ht.
      cbn [negb]. rewrite floor_minutes, (floor_seconds q Hq). reflexivity.
    + split; [apply Z.div_pos; lia |].
      split; [apply Z.mod_pos_bound; lia |].
      rewrite (Z.mod_eq (Qfloor q) 60) by lia. lia.
Qed.

(** A clip of 372.5 seconds. *)
Lemma formatDuration_witness :
  exists mins secs : Z,
    formatDuration (Some (Num (745 # 2)))
      = pretty mins +:+ "m " +:+ pretty secs +:+ "s" /\
    0 <= mins /\ 0 <= secs < 60 /\ 60 * mins + secs = Qfloor (745 # 2).
Proof.
  refine (proj2 (proj2 (proj2 formatDuration_minutes_seconds)) (745 # 2) _).
  reflexivity.
Defined.

End Duration.

(** ** What the cadence callback answers *)

Section PollingCadence.
Import Js VideoDetailPage.

Lemma is_str_eq (v : JsVal) (s : string) : is_str v s = true <-> v = JStr s.
Proof.
  split.
  - destruct v; simpl; try discriminate. intros H.
    apply bool_decide_eq_true_1 in H. rewrite H. reflexivity.
  - intros ->. simpl. apply bool_decide_eq_true_2. reflexivity.
Qed.

Lemma active_dec (v : Job) : active v \/ inactive v.
Proof.
  unfold inactive, active.
  destruct (decide (status v = "processing")); [auto |].
  destruct (decide (status v = "uploaded")); [auto |].
  right. intros [|]; contradiction.
Qed.

(** X6.  The callback answers a delay only for a value whose member
    [status] is the string [processing] or [uploaded], and the delay is
    then always 2000 ms.  Handed a job snapshot it therefore answers
    2000 ms exactly while the job is active and [false] under every other
    status, known to the client or not; handed [undefined] or [null] it
    answers [false]. *)
Theorem refetchInterval_only_on_active_status :
  (forall video ms,
      refetchInterval video = Some ms <->
      ms = fast /\
      (prop "status" video = JStr "processing" \/ prop "status" video = JStr "uploaded")) /\
  (forall v : Job, refetchInterval (job_to_js v) = Some fast <-> active v) /\
  (forall v : Job, refetchInterval (job_to_js v) = None <-> inactive v) /\
  refetchInterval JUndefined = None /\
  refetchInterval JNull = None.
Proof.
  split; [| split; [| split; [| split; reflexivity]]].
  - intros video ms. unfold refetchInterval. split.
    + destruct (is_str (prop "status" video) "processing") eqn:Hp.
      * intros H. injection H as <-. split; [reflexivity |].
        left. apply is_str_eq, Hp.
      * destruct (is_str (prop "status" video) "uploaded") eqn:Hu;
          [| discriminate].
        intros H. injection H as <-. split; [reflexivity |].
        right. apply is_str_eq, Hu.
    + intros (-> & [H | H]); rewrite H; reflexivity.
  - intros v. split; [| apply refetchInterval_active].
    intros H. destruct (active_dec v) as [Ha | Hi]; [exact Ha |].
    rewrite (refetchInterval_inactive v Hi) in H. discriminate H.
  - intros v. split; [| apply refetchInterval_inactive].
    intros H Ha. rewrite (refetchInterval_active v Ha) in H. discriminate H.
Qed.

(** A job the server reports as [queued], a status the page does not
    know, and one it reports as [uploaded]. *)
Lemma refetchInterval_status_witness :
  refetchInterval (job_to_js (Examples.job "queued")) = None /\
  refetchInterval (job_to_js (Examples.job "uploaded")) = Some fast.
Proof.
  destruct refetchInterval_only_on_active_status as (_ & Hact & Hin & _).
  split.
  - apply Hin. intros [H | H]; discriminate H.
  - apply Hact. right. reflexivity.
Defined.

End PollingCadence.

(** ** What is drawn over the frame *)

Section Drawing.
Import CalibrationPage.

Lemma labels_app (a b : list DrawOp) : labels (a ++ b) = labels a ++ labels b.
Proof. apply omap_app. Qed.

Lemma labels_markers_length (k : nat) (ps : list Point) :
  length (labels (markers k ps)) = length ps.
Proof.
  revert k. induction ps as [| p ps IH]; intros k; [reflexivity |].
  cbn [markers]. rewrite labels_app, length_app, IH. reflexivity.
Qed.

Lemma labels_markers_lookup (k i : nat) (ps : list Point) (p : Point) :
  ps !! i = Some p ->
  labels (markers k ps) !! i
    = Some (pretty (k + i + 1)%nat, (fst p + 8)%Q, (snd p - 8)%Q).
Proof.
  revert k i. induction ps as [| p0 ps IH]; intros k i Hi; [discriminate Hi |].
  cbn [markers]. rewrite labels_app. destruct i as [| i].
  - injection Hi as ->. simpl. rewrite Nat.add_0_r. reflexivity.
  - simpl in Hi. change (labels (marker k p0)) with
      [ (pretty (k + 1)%nat, (fst p0 + 8)%Q, (snd p0 - 8)%Q) ].
    simpl. rewrite (IH (S k) i Hi).
    replace (S k + i + 1)%nat with (k + S i + 1)%nat by lia. reflexivity.
Qed.

Lemma labels_outline (ps : list Point) : labels (outline ps) = [].
Proof. destruct ps as [| p0 [| p1 [| p2 [| p3 [| p4 ps]]]]]; reflexivity. Qed.

Lemma Stroke_not_in_markers (k : nat) (ps : list Point) : Stroke ∉ markers k ps.
Proof.
  revert k. induction ps as [| p ps IH]; intros k; cbn [markers].
  - apply not_elem_of_nil.
  - rewrite elem_of_app. intros [H | H]; [| exact (IH _ H)].
    unfold marker in H. rewrite !elem_of_cons, elem_of_nil in H.
    repeat (destruct H as [H | H]; [discriminate H |]). exact H.
Qed.

Lemma Stroke_in_outline (ps : list Point) : Stroke ∈ outline ps <-> length ps = 4%nat.
Proof.
  destruct ps as [| p0 [| p1 [| p2 [| p3 [| p4 ps]]]]]; simpl;
    try (split; [intros H; apply elem_of_nil in H; contradiction | discriminate]).
  split; [reflexivity |]. intros _.
  rewrite !elem_of_cons. repeat (try (left; reflexivity); right).
Qed.

(** The drawing once canvas and image are there and the image is loaded. *)
Lemma drawCanvasOps_ready (canvas : Canvas) (image : Image) (st : State) :
  drawCanvasOps (Some canvas) (Some image) true st =
    [ SetSize (image_width image) (image_height image); DrawImage 0 0 ]
    ++ match points st with
       | [] => []
       | ps => [ FillStyle "#00ff00"; StrokeStyle "#00ff00"; LineWidth 2 ]
               ++ markers 0 ps ++ outline ps
       end.
Proof. reflexivity. Qed.

(** X7.  Without a canvas, without an image or before the image is
    loaded nothing is drawn.  Otherwise the drawing starts by sizing the
    bitmap to the image and drawing the image; it then writes one label per
    recorded point, the point's 1-based position in the list, next to the
    point; and it strokes the outline exactly when four points are
    recorded. *)
Theorem drawing_labels_and_outline :
  (forall image loaded st, drawCanvasOps None image loaded st = []) /\
  (forall canvas loaded st, drawCanvasOps canvas None loaded st = []) /\
  (forall canvas image st, drawCanvasOps canvas image false st = []) /\
  (forall canvas image st,
      let ops := drawCanvasOps (Some canvas) (Some image) true st in
      (exists rest,
          ops = SetSize (image_width image) (image_height image)
                  :: DrawImage 0 0 :: rest) /\
      length (labels ops) = length (points st) /\
      (forall i p, points st !! i = Some p ->
         labels ops !! i = Some (pretty (i + 1)%nat, (fst p + 8)%Q, (snd p - 8)%Q)) /\
      (Stroke ∈ ops <-> length (points st) = 4%nat)).
Proof.
  split; [reflexivity |].
  split; [intros [c |] loaded st; reflexivity |].
  split; [intros [c |] [im |] st; reflexivity |].
  intros canvas image st ops. unfold ops. rewrite drawCanvasOps_ready.
  destruct (points st) as [| p ps] eqn:Hps.
  - split; [eexists; reflexivity |]. split; [reflexivity |].
    split; [intros i q Hq; discriminate Hq |].
    simpl. split; [| discriminate].
    rewrite !elem_of_cons, elem_of_nil. intros [H | [H | []]]; discriminate H.
  - cbv beta iota zeta. split; [eexists; reflexivity |].
    assert (Hl : labels ([ SetSize (image_width image) (image_height image); DrawImage 0 0 ]
                         ++ [ FillStyle "#00ff00"; StrokeStyle "#00ff00"; LineWidth 2 ]
                         ++ markers 0 (p :: ps) ++ outline (p :: ps))
                 = labels (markers 0 (p :: ps))).
    { rewrite !labels_app, labels_outline, app_nil_r. reflexivity. }
    split; [| split].
    + rewrite Hl. apply labels_markers_length.
    + intros i q Hq. rewrite Hl.
      apply (labels_markers_lookup 0 i (p :: ps) q Hq).
    + rewrite <- Stroke_in_outline.
      rewrite !elem_of_app, !elem_of_cons, elem_of_nil.
      split.
      * intros [[H | [H | []]] | [[H | [H | [H | []]]] | [H | H]]];
          try discriminate H; [| exact H].
        exfalso. exact (Stroke_not_in_markers _ _ H).
      * intros H. right. right. right. exact H.
Qed.

(** The third corner of the marked state is labelled [3]. *)
Lemma drawing_witness :
  labels (drawCanvasOps (Some Examples.canvas) (Some Examples.frame) true Examples.marked)
    !! 2%nat
  = Some (pretty 3%nat, (1920 + 8)%Q, (1080 - 8)%Q).
Proof.
  refine (proj1 (proj2 (proj2 (proj2 (proj2 (proj2 drawing_labels_and_outline))
            Examples.canvas Examples.frame Examples.marked))) 2%nat (1920, 1080)%Q _).
  reflexivity.
Defined.

End Drawing.

(** ** Saving, loading and resetting a calibration *)

Section CalibrationFlow.
Import Js CalibrationPage.

Lemma positive_truthy (n : number) : truthy_number n && positive n = positive n.
Proof.
  destruct (positive n) eqn:Hp; [| apply andb_false_r].
  apply positive_Positive in Hp as (q & -> & Hq).
  pose proof (truthy_positive q Hq) as Ht.
  change (truthy_number (Num q) = true) in Ht. rewrite Ht. reflexivity.
Qed.

(** X8.  What [save] sends is read back by the page: when a response
    carries, as its member [calibration_data], the object that was sent
    with the mode [four_point] added, the pre-fill restores the very
    points and distance that were saved, whatever the page held before. *)
Theorem save_then_load_round_trip :
  forall (id : string) (st : State) (r : Request) (sent : gmap string JsVal)
         (calibration : JsVal) (st' : State),
    r ∈ requests (handleSaveCalibration id st) ->
    body r = Json (JObj sent) ->
    prop "calibration_data" calibration = JObj (<["mode" := JStr "four_point"]> sent) ->
    prefill calibration st' = Some st.
Proof.
  intros id st r sent calibration st' Hin Hbody Hdata.
  apply save_request_inv in Hin as (Hlen & (q & Hq & Hpos) & ->).
  simpl in Hbody. unfold calibrationData, obj in Hbody. injection Hbody as <-.
  destruct st as [ps d]. simpl in *. subst d.
  apply (prefill_wrapped calibration _ ps q st' Hdata); try assumption.
  - apply lookup_insert_eq.
  - rewrite lookup_insert_ne by discriminate. apply lookup_insert_eq.
  - rewrite lookup_insert_ne by discriminate.
    rewrite lookup_insert_ne by discriminate. apply lookup_insert_eq.
Qed.

(** The marked state saved, then loaded into a fresh page. *)
Lemma save_then_load_witness :
  prefill Examples.storedCalibration initial = Some Examples.marked.
Proof.
  refine (save_then_load_round_trip "7" Examples.marked
            (Api.saveCalibration "7" (calibrationData Examples.marked))
            (list_to_map
               [ ("points", JArr (point_to_js <$> Examples.corners));
                 ("reference_distance", JNum (Num 10)) ])
            Examples.storedCalibration initial _ _ _).
  - apply list_elem_of_singleton. reflexivity.
  - reflexivity.
  - reflexivity.
Defined.

(** X9.  The two halves of a fetched calibration are loaded each on its
    own condition: the points replace the page's points only when there
    are four of them, the distance replaces the page's distance only when
    it is above [0]; one can be loaded without the other.  A response
    whose [calibration_data] has the mode but neither member changes
    nothing. *)
Theorem prefill_loads_halves_independently :
  (forall (calibration : JsVal) (data : gmap string JsVal)
          (ps : list Point) (n : number) (st : State),
      prop "calibration_data" calibration = JObj data ->
      data !! "mode" = Some (JStr "four_point") ->
      data !! "points" = Some (JArr (point_to_js <$> ps)) ->
      data !! "reference_distance" = Some (JNum n) ->
      prefill calibration st =
        Some {| points := if bool_decide (length ps = 4%nat) then ps else points st;
                referenceDistance := if positive n then n else referenceDistance st |}) /\
  (forall (calibration : JsVal) (data : gmap string JsVal) (st : State),
      prop "calibration_data" calibration = JObj data ->
      data !! "mode" = Some (JStr "four_point") ->
      data !! "points" = None ->
      data !! "reference_distance" = None ->
      prefill calibration st = Some st).
Proof.
  split.
  - intros calibration data ps n st Hdata Hmode Hpoints Hdist.
    unfold prefill. rewrite Hdata.
    rewrite (prop_present _ _ _ Hmode), (prop_present _ _ _ Hpoints),
      (prop_present _ _ _ Hdist).
    cbn [is_str or truthy loadPoints].
    rewrite bool_decide_eq_true_2 by reflexivity.
    rewrite length_fmap.
    case_bool_decide as Hlen.
    + rewrite (mapM_fmap_Some as_point point_to_js ps as_point_to_js).
      cbn [mbind option_bind loadDistance]. rewrite positive_truthy.
      destruct (positive n); reflexivity.
    + cbn [mbind option_bind loadDistance]. rewrite positive_truthy.
      destruct (positive n); destruct st; reflexivity.
  - intros calibration data st Hdata Hmode Hpoints Hdist.
    unfold prefill. rewrite Hdata.
    rewrite (prop_present _ _ _ Hmode), (prop_missing _ _ Hpoints),
      (prop_missing _ _ Hdist).
    reflexivity.
Qed.

(** A stored calibration of three points and a distance of 25: the
    distance is loaded, the points are not. *)
Lemma prefill_halves_witness :
  prefill Examples.threePointCalibration initial
  = Some {| points := []; referenceDistance := Num 25 |}.
Proof.
  refine (proj1 prefill_loads_halves_independently Examples.threePointCalibration
            (list_to_map
               [ ("mode", JStr "four_point");
                 ("points", JArr (point_to_js <$> [ (0, 0); (1920, 0); (1920, 1080) ]%Q));
                 ("reference_distance", JNum (Num 25)) ])
            [ (0, 0); (1920, 0); (1920, 1080) ]%Q (Num 25) initial _ _ _ _);
    reflexivity.
Defined.

(** X10.  After a reset, four clicks on the canvas make the page ready to
    save: the state holds the four points the clicks record, in the order
    of the clicks, and [save] sends these with the default distance [10]. *)
Theorem reset_four_clicks_save :
  forall (id : string) (canvas : Canvas) (e1 e2 e3 e4 : MouseEvent) (st : State),
    let click e := handleCanvasClick (Some canvas) e in
    let st4 := click e4 (click e3 (click e2 (click e1 (handleReset st)))) in
    points st4
      = recorded canvas e1 ++ recorded canvas e2
        ++ recorded canvas e3 ++ recorded canvas e4 /\
    requests (handleSaveCalibration id st4)
      = [ Api.saveCalibration id
            (obj [ ("points", JArr (point_to_js <$> points st4));
                   ("reference_distance", JNum (Num 10)) ]) ] /\
    requests (handleSaveCalibration id (click e3 (click e2 (click e1 (handleReset st)))))
      = [].
Proof.
  intros id canvas e1 e2 e3 e4 st click st4.
  split; [reflexivity |]. split; reflexivity.
Qed.

(** X11.  A click inside the displayed box of the canvas is recorded
    inside the image: its coordinates are between [0] and the bitmap's
    width and height. *)
Theorem click_inside_box_inside_image :
  forall (canvas : Canvas) (e : MouseEvent) (st : State),
    let rect := getBoundingClientRect canvas in
    (0 < rect_width rect)%Q -> (0 < rect_height rect)%Q ->
    (0 <= width canvas)%Q -> (0 <= height canvas)%Q ->
    (left rect <= clientX e)%Q -> (clientX e <= left rect + rect_width rect)%Q ->
    (top rect <= clientY e)%Q -> (clientY e <= top rect + rect_height rect)%Q ->
    (length (points st) < 4)%nat ->
    exists p : Point,
      points (handleCanvasClick (Some canvas) e st) = points st ++ [ p ] /\
      (0 <= fst p)%Q /\ (fst p <= width canvas)%Q /\
      (0 <= snd p)%Q /\ (snd p <= height canvas)%Q.
Proof.
  intros canvas e st rect Hw Hh HW HH Hx0 Hx1 Hy0 Hy1 Hroom.
  rewrite (click_when_room canvas e st Hroom). fold rect.
  eexists. split; [reflexivity |]. cbn [fst snd].
  assert (Hscale : forall a w W : Q,
             (0 < w)%Q -> (0 <= W)%Q -> (0 <= a)%Q -> (a <= w)%Q ->
             (0 <= a / w * W)%Q /\ (a / w * W <= W)%Q).
  { intros a w W Hw0 HW0 Ha0 Ha1.
    assert (H0 : (0 <= a / w)%Q) by (apply Qle_shift_div_l; [exact Hw0 | lra]).
    assert (H1 : (a / w <= 1)%Q) by (apply Qle_shift_div_r; [exact Hw0 | lra]).
    split.
    - apply Qmult_le_0_compat; assumption.
    - apply Qle_trans with (1 * W)%Q;
        [apply Qmult_le_compat_r; assumption | lra]. }
  destruct (Hscale (clientX e - left rect)%Q (rect_width rect) (width canvas))
    as [Hxa Hxb]; [assumption | assumption | lra | lra |].
  destruct (Hscale (clientY e - top rect)%Q (rect_height rect) (height canvas))
    as [Hya Hyb]; [assumption | assumption | lra | lra |].
  repeat split; assumption.
Qed.

(** A click in the middle of the sample box. *)
Lemma click_inside_witness :
  exists p : Point,
    points (handleCanvasClick (Some Examples.canvas)
              {| clientX := 580; clientY := 320 |} initial) = [] ++ [ p ] /\
    (0 <= fst p)%Q /\ (fst p <= 1920)%Q /\ (0 <= snd p)%Q /\ (snd p <= 1080)%Q.
Proof.
  refine (click_inside_box_inside_image Examples.canvas
            {| clientX := 580; clientY := 320 |} initial _ _ _ _ _ _ _ _ _);
    simpl; try lia; try (unfold Qle, Qlt; simpl; lia).
Defined.

End CalibrationFlow.

(** ** Selecting, sending and following an upload *)

Section UploadFlow.
Import UploadPage.

Lemma accepted_or_refused (file : File.t) : accepted file \/ refused file.
Proof.
  unfold accepted, refused, validType.
  destruct (decide (fileExt (File.name file) ∈ validTypes)) as [Hin | Hout].
  - destruct (decide (File.size file <= maxSize)) as [Hle | Hgt].
    + left. split; [apply bool_decide_eq_true_2, Hin | exact Hle].
    + right. right. lia.
  - right. left. exact Hout.
Qed.

Lemma handleFileSelect_accepted (file : File.t) (st : State) :
  accepted file -> handleFileSelect file st = (setSelectedFile (Some file) st, []).
Proof.
  intros [Hty Hsz]. unfold handleFileSelect. rewrite Hty. simpl.
  rewrite bool_decide_eq_false_2 by lia. reflexivity.
Qed.

(** X12.  Every file is either accepted or refused.  An accepted file,
    up to and including 500MB, becomes the selection whatever was selected
    before, and pressing the upload button then sends exactly one request,
    the multipart upload of that file. *)
Theorem accepted_file_is_sent :
  (forall file, accepted file \/ refused file) /\
  (forall file st,
      accepted file ->
      handleFileSelect file st = (setSelectedFile (Some file) st, []) /\
      snd (run [ FileSelect file; Upload ] st) = [ Http (Api.upload file) ]).
Proof.
  split; [exact accepted_or_refused |].
  intros file st Hacc. split; [apply handleFileSelect_accepted, Hacc |].
  cbn [run step]. rewrite (handleFileSelect_accepted file st Hacc). reflexivity.
Qed.

(** A file of exactly 500MB, picked while another one was selected. *)
Lemma accepted_file_witness :
  snd (run [ FileSelect Examples.largest; Upload ] Examples.uploading)
  = [ Http (Api.upload Examples.largest) ].
Proof.
  refine (proj2 (proj2 accepted_file_is_sent Examples.largest Examples.uploading _)).
  split; [reflexivity | vm_compute; discriminate].
Defined.

Lemma run_cons (ev : Event) (evs : list Event) (st : State) :
  fst (run (ev :: evs) st) = fst (run evs (fst (step ev st))).
Proof.
  cbn [run]. destruct (step ev st) as [st1 es1]. simpl.
  destruct (run evs st1) as [st2 es2]. reflexivity.
Qed.

Lemma step_handoff (ev : Event) (st : State) :
  pollingVideo (fst (step ev st))
    = match ev with Succeeded id => Some id | _ => pollingVideo st end /\
  uploadedVideoId (fst (step ev st))
    = match ev with Succeeded id => Some id | _ => uploadedVideoId st end.
Proof.
  destruct ev as [file | | | percent | error | id]; simpl; try (split; reflexivity).
  - unfold handleFileSelect. destruct (validType (File.name file)); simpl;
      [case_bool_decide |]; split; reflexivity.
  - unfold handleUpload. destruct (selectedFile st); split; reflexivity.
Qed.

Lemma succeeded_cons (ev : Event) (evs : list Event) :
  succeeded (ev :: evs)
    = match ev with Succeeded id => id :: succeeded evs | _ => succeeded evs end.
Proof. destruct ev; reflexivity. Qed.

Lemma run_handoff (evs : list Event) (st : State) :
  pollingVideo (fst (run evs st))
    = from_option Some (pollingVideo st) (last (succeeded evs)) /\
  uploadedVideoId (fst (run evs st))
    = from_option Some (uploadedVideoId st) (last (succeeded evs)).
Proof.
  revert st. induction evs as [| ev evs IH]; intros st; [split; reflexivity |].
  rewrite run_cons. destruct (IH (fst (step ev st))) as [IHp IHu].
  rewrite IHp, IHu. destruct (step_handoff ev st) as [Hp Hu]. rewrite Hp, Hu.
  rewrite succeeded_cons. destruct ev; try (split; reflexivity).
  rewrite last_cons. destruct (last (succeeded evs)); split; reflexivity.
Qed.

(** X13.  The job the upload page follows after the hand-off is always
    the one created by the latest successful upload, and none before the
    first success: picking or removing a file, progress, a later failure
    and a further press of the button never change it. *)
Theorem handoff_follows_last_success :
  forall evs : list Event,
    pollingVideo (fst (run evs initial)) = last (succeeded evs) /\
    uploadedVideoId (fst (run evs initial)) = last (succeeded evs).
Proof.
  intros evs. destruct (run_handoff evs initial) as [Hp Hu].
  rewrite Hp, Hu. destruct (last (succeeded evs)); split; reflexivity.
Qed.

End UploadFlow.

(** ** The report *)

Section Report.
Import ReportPage.

Lemma filter_split_length {A : Type} (f : A -> bool) (l : list A) :
  (length (List.filter f l) + length (List.filter (fun x => negb (f x)) l))%nat = length l.
Proof.
  induction l as [| x l IH]; simpl; [reflexivity |].
  destruct (f x); simpl; lia.
Qed.

Lemma filter_true {A : Type} (l : list A) : List.filter (fun _ => true) l = l.
Proof. induction l as [| x l IH]; simpl; [reflexivity |]. rewrite IH. reflexivity. Qed.

Lemma filteredDetections_speeding (ds : list Detection) :
  filteredDetections "speeding" ds = List.filter is_speeding ds.
Proof. reflexivity. Qed.

Lemma filteredDetections_normal (ds : list Detection) :
  filteredDetections "normal" ds = List.filter (fun d => negb (is_speeding d)) ds.
Proof. reflexivity. Qed.

(** X14.  The tabs of the report split the rows: the speeding rows and
    the normal rows together are all rows, each row on one side; the
    count shown as speeding vehicles is the number of rows of the speeding
    tab; and any other tab value, [all] among them, shows every row. *)
Theorem report_tabs_partition :
  forall ds : list Detection,
    (forall tab, tab <> "speeding" -> tab <> "normal" -> filteredDetections tab ds = ds) /\
    length (filteredDetections "speeding" ds) = speedingVehicles ds /\
    (length (filteredDetections "speeding" ds)
     + length (filteredDetections "normal" ds))%nat = totalVehicles ds /\
    (forall d, In d (filteredDetections "speeding" ds) <-> In d ds /\ is_speeding d = true) /\
    (forall d, In d (filteredDetections "normal" ds) <-> In d ds /\ is_speeding d = false).
Proof.
  intros ds. split; [| split; [| split; [| split]]].
  - intros tab Hs Hn. unfold filteredDetections.
    rewrite (bool_decide_eq_false_2 _ Hs), (bool_decide_eq_false_2 _ Hn).
    apply filter_true.
  - reflexivity.
  - rewrite filteredDetections_speeding, filteredDetections_normal.
    apply filter_split_length.
  - intros d. rewrite filteredDetections_speeding. apply filter_In.
  - intros d. rewrite filteredDetections_normal, filter_In.
    rewrite negb_true_iff. reflexivity.
Qed.

(** The tab [all] on the sample report. *)
Lemma report_tabs_witness :
  filteredDetections "all" Examples.report = Examples.report.
Proof.
  refine (proj1 (report_tabs_partition Examples.report) "all" _ _); discriminate.
Defined.

Lemma max2_bounds (a b : Q) :
  (a <= max2 a b)%Q /\ (b <= max2 a b)%Q /\ (max2 a b = a \/ max2 a b = b).
Proof.
  unfold max2. destruct (Qle_bool a b) eqn:E.
  - apply Qle_bool_iff in E. split; [exact E |]. split; [apply Qle_refl | auto].
  - split; [apply Qle_refl |]. split; [| auto].
    apply Qlt_le_weak, Qnot_le_lt. intros H. apply Qle_bool_iff in H. congruence.
Qed.

(** X15.  The top speed shown is never below [0] and never below the
    speed of a row; it is [0] or the speed of one of the rows.  On an
    empty report, or when no speed is above [0], it is [0]. *)
Theorem maxSpeed_is_top_speed :
  forall ds : list Detection,
    (0 <= maxSpeed ds)%Q /\
    (forall d, In d ds -> (speed d <= maxSpeed ds)%Q) /\
    (maxSpeed ds = 0%Q \/ exists d, In d ds /\ maxSpeed ds = speed d) /\
    ((forall d, In d ds -> (speed d <= 0)%Q) -> (maxSpeed ds == 0)%Q).
Proof.
  induction ds as [| d0 ds (IH0 & IHle & IHin & IHzero)].
  - split; [apply Qle_refl |]. split; [intros d [] |]. split; [left |]; reflexivity.
  - change (maxSpeed (d0 :: ds)) with (max2 (speed d0) (maxSpeed ds)).
    destruct (max2_bounds (speed d0) (maxSpeed ds)) as (Ha & Hb & Hc).
    split; [exact (Qle_trans _ _ _ IH0 Hb) |]. split; [| split].
    + intros d [<- | Hd]; [exact Ha |]. exact (Qle_trans _ _ _ (IHle d Hd) Hb).
    + destruct Hc as [-> | ->].
      * right. exists d0. split; [left |]; reflexivity.
      * destruct IHin as [-> | (d & Hd & ->)]; [left; reflexivity |].
        right. exists d. split; [right; exact Hd | reflexivity].
    + intros Hall. apply Qle_antisym; [| exact (Qle_trans _ _ _ IH0 Hb)].
      destruct Hc as [-> | ->].
      * apply Hall. left. reflexivity.
      * rewrite IHzero; [apply Qle_refl |]. intros d Hd. apply Hall. right. exact Hd.
Qed.

(** The fastest row of the sample report. *)
Lemma maxSpeed_witness :
  (speed Examples.speeder <= maxSpeed Examples.report)%Q.
Proof.
  refine (proj1 (proj2 (maxSpeed_is_top_speed Examples.report)) Examples.speeder _).
  right. left. reflexivity.
Defined.

Lemma speeding_le_total (ds : list Detection) :
  (speedingVehicles ds <= totalVehicles ds)%nat.
Proof.
  unfold speedingVehicles, totalVehicles.
  pose proof (filter_split_length is_speeding ds). lia.
Qed.

(** X16.  The share of speeding vehicles handed on for display is a
    percentage: between [0] and [100], [0] on an empty report (no division
    by the empty count), and [100] when every row is speeding. *)
Theorem speedingShare_is_percentage :
  forall ds : list Detection,
    (0 <= speedingShare ds)%Q /\ (speedingShare ds <= 100)%Q /\
    (ds = [] -> speedingShare ds = 0%Q) /\
    (ds <> [] -> speedingVehicles ds = totalVehicles ds -> (speedingShare ds == 100)%Q).
Proof.
  intros ds. pose proof (speeding_le_total ds) as Hle.
  unfold speedingShare. case_bool_decide as Hpos.
  - set (s := inject_Z (Z.of_nat (speedingVehicles ds))).
    set (t := inject_Z (Z.of_nat (totalVehicles ds))).
    assert (Ht : (0 < t)%Q).
    { unfold t. change 0%Q with (inject_Z 0). rewrite <- Zlt_Qlt. lia. }
    assert (Hs0 : (0 <= s)%Q).
    { unfold s. change 0%Q with (inject_Z 0). rewrite <- Zle_Qle. lia. }
    assert (Hst : (s <= t)%Q).
    { unfold s, t. rewrite <- Zle_Qle. lia. }
    assert (H0 : (0 <= s / t)%Q) by (apply Qle_shift_div_l; [exact Ht | lra]).
    assert (H1 : (s / t <= 1)%Q) by (apply Qle_shift_div_r; [exact Ht | lra]).
    split; [lra |]. split; [lra |]. split.
    + intros ->. simpl in Hpos. lia.
    + intros _ Heq. unfold s, t. rewrite Heq. fold t. field.
      intros Hz. rewrite Hz in Ht. exact (Qlt_irrefl 0 Ht).
  - split; [apply Qle_refl |]. split; [unfold Qle; simpl; lia |].
    split; [reflexivity |].
    intros Hne. destruct ds; [contradiction | simpl in Hpos; lia].
Qed.

(** The sample report: one row of three is speeding. *)
Lemma speedingShare_witness :
  Examples.report <> [] /\ (speedingShare [ Examples.speeder ] == 100)%Q.
Proof.
  split; [discriminate |].
  refine (proj2 (proj2 (proj2 (speedingShare_is_percentage [ Examples.speeder ]))) _ _).
  - discriminate.
  - reflexivity.
Defined.

End Report.
